(** * Reviews Copilot: the resilient API client

    A shallow embedding of [frontend/src/services/api.ts] (the retry
    engine and the [reviewsAPI] facade) and of the [ConnectionStatus]
    component of [frontend/src/App.tsx].

    Asynchronous code is modelled by explicit state passing: the state is
    the history of observable events (network calls issued through the
    axios instance and timer waits), and the remote service is an
    arbitrary function of that history.  Console output and the timing
    metadata of the interceptors do not influence control flow and are
    left out of the history. *)

From Stdlib Require Import ZArith String Ascii List Bool Lia.
From stdpp Require Import base strings gmap pretty.
From Equations Require Import Equations.
Import ListNotations.

Local Open Scope string_scope.
Local Open Scope Z_scope.
Local Open Scope list_scope.

(** ** JavaScript values that the client inspects *)

(** A property of an object: not an own property, present but
    [undefined], or present with a value.  The test ['response' in error]
    distinguishes the first case from the other two, while
    [error.response?.status] sees no value in either. *)
Inductive JsProp (A : Type) : Type :=
| Absent
| Undefined
| Present (a : A).
Arguments Absent {A}.
Arguments Undefined {A}.
Arguments Present {A} a.

(** Primitive values of a query-parameter object. *)
Inductive JsPrim : Type :=
| JsNum (n : Z)
| JsStr (s : string)
| JsUndef.

(** [interface Review] of [types/index.ts]. *)
Record Review : Type := mkReview {
  id : Z;
  location : string;
  rating : Z;
  text : string;
  date : string;
  sentiment : option string;
  topic : option string
}.

(** The body of a response: the [detail] member that the error handlers
    read, and the rest of the JSON document, kept opaque. *)
Record ResponseData : Type := mkData {
  detail : option string;
  payload : string
}.

Record AxiosResponse : Type := mkResponse {
  status : Z;
  data : ResponseData
}.

(** An [Error] object.  [AxiosError] adds [code] and [response]; a plain
    [new Error(msg)] has neither. *)
Record JsError : Type := mkJsError {
  message : string;
  code : option string;
  response : JsProp AxiosResponse
}.

(** [new Error(msg)] *)
Definition Error (msg : string) : JsError :=
  {| message := msg; code := None; response := Absent |}.

(** What a [catch (error: unknown)] clause can receive: an [Error]
    object, or some other (primitive) value. *)
Inductive Thrown : Type :=
| ThrownError (e : JsError)
| ThrownOther.

Inductive Method : Type := GET | POST.

(** [AxiosRequestConfig], with the members the client sets. *)
Record AxiosRequestConfig : Type := mkConfig {
  method : Method;
  url : string;
  params : option (gmap string JsPrim);
  body : option (list Review)
}.

(** ** Property reads on a caught value *)

(** [error instanceof Error] *)
Definition instanceofError (error : Thrown) : bool :=
  match error with ThrownError _ => true | ThrownOther => false end.

(** [error && typeof error === 'object' && 'response' in error] *)
Definition hasResponseKey (error : Thrown) : bool :=
  match error with
  | ThrownError e =>
      match response e with Absent => false | _ => true end
  | ThrownOther => false
  end.

(** [error.code] *)
Definition errorCode (error : Thrown) : option string :=
  match error with ThrownError e => code e | ThrownOther => None end.

(** [error.message] *)
Definition errorMessage (error : Thrown) : string :=
  match error with ThrownError e => message e | ThrownOther => "undefined" end.

(** [error.response?.status] *)
Definition responseStatus (error : Thrown) : option Z :=
  match error with
  | ThrownError e =>
      match response e with Present r => Some (status r) | _ => None end
  | ThrownOther => None
  end.

(** [error.response?.data?.detail] *)
Definition responseDetail (error : Thrown) : option string :=
  match error with
  | ThrownError e =>
      match response e with Present r => detail (data r) | _ => None end
  | ThrownOther => None
  end.

(** [a || b] on an optional string: [undefined] and the empty string are
    falsy. *)
Definition orElse (a : option string) (b : string) : string :=
  match a with
  | Some s => if String.eqb s "" then b else s
  | None => b
  end.

(** [x === v] for an optional number and a number literal. *)
Definition statusIs (x : option Z) (v : Z) : bool :=
  match x with Some s => s =? v | None => false end.

(** ** Configuration *)

Definition REQUEST_TIMEOUT : Z := 30000.
Definition MAX_RETRIES : Z := 3.

(** ** The retry decision *)

(** [shouldRetry]: timeout, server errors, rate limiting.  A status of
    [0] or a missing status is falsy in the second disjunct. *)
Definition shouldRetry (error : Thrown) : bool :=
  match errorCode error with
  | Some c => String.eqb c "ECONNABORTED"
  | None => false
  end
  || match responseStatus error with
     | Some s => negb (s =? 0) && (500 <=? s)
     | None => false
     end
  || statusIs (responseStatus error) 429.

(** ** Asynchronous computations over an event history *)

Inductive Event : Type :=
| NetCall (config : AxiosRequestConfig)
| Wait (ms : Z).

Definition World : Type := list Event.

Definition Result (A : Type) : Type := (A + Thrown)%type.

Definition Async (A : Type) : Type := World -> Result A * World.

Definition ret {A} (a : A) : Async A := fun w => (inl a, w).

Definition throw {A} (error : Thrown) : Async A := fun w => (inr error, w).

Definition bind {A B} (m : Async A) (k : A -> Async B) : Async B :=
  fun w =>
    match m w with
    | (inl a, w1) => k a w1
    | (inr error, w1) => (inr error, w1)
    end.

(** [try { m } catch (error) { handler }] *)
Definition try_catch {A} (m : Async A) (handler : Thrown -> Async A) : Async A :=
  fun w =>
    match m w with
    | (inl a, w1) => (inl a, w1)
    | (inr error, w1) => handler error w1
    end.

Notation "'await' x <- m ; k" := (bind m (fun x => k))
  (at level 10, x name, m at level 100, k at level 200).

(** [await new Promise(resolve => setTimeout(resolve, ms))] *)
Definition sleep (ms : Z) : Async unit := fun w => (inl tt, w ++ [Wait ms]).

(** ** Helpers of the facade *)

(** Object spread [{ ...defaults, ...params }]: every own property of
    [params] overrides the default under the same key. *)
Definition spread (defaults params : gmap string JsPrim) : gmap string JsPrim :=
  params ∪ defaults.

(** ECMAScript white space and line terminators among the code units
    below 256 (a string is read as a sequence of such code units):
    TAB, LF, VT, FF, CR, SP and NBSP. *)
Definition isWhiteSpace (c : ascii) : bool :=
  match N_of_ascii c with
  | 9 | 10 | 11 | 12 | 13 | 32 | 160 => true
  | _ => false
  end%N.

Fixpoint trimStart (s : string) : string :=
  match s with
  | EmptyString => EmptyString
  | String c s' => if isWhiteSpace c then trimStart s' else s
  end.

Fixpoint trimEnd (s : string) : string :=
  match s with
  | EmptyString => EmptyString
  | String c s' =>
      match trimEnd s' with
      | EmptyString => if isWhiteSpace c then EmptyString else String c EmptyString
      | t => String c t
      end
  end.

(** [String.prototype.trim] *)
Definition trim (s : string) : string := trimEnd (trimStart s).

(** The argument of [ingestReviews] as [Array.isArray] sees it. *)
Inductive JsArg : Type :=
| ArrayOf (l : list Review)
| NotArray.

(** Number of network calls recorded in a history. *)
Fixpoint countCalls (w : World) : nat :=
  match w with
  | [] => O
  | NetCall _ :: w' => S (countCalls w')
  | Wait _ :: w' => countCalls w'
  end.

(** The timer waits recorded in a history, oldest first. *)
Fixpoint waits (w : World) : list Z :=
  match w with
  | [] => []
  | NetCall _ :: w' => waits w'
  | Wait ms :: w' => ms :: waits w'
  end.

Section Client.

(** The remote service together with the network: what one call of the
    axios instance yields, given everything that happened before.  Axios
    resolves with a response or rejects with an [AxiosError]. *)
Variable net : World -> AxiosRequestConfig -> AxiosResponse + JsError.

(** [api(config)]: exactly one network call. *)
Definition api (config : AxiosRequestConfig) : Async AxiosResponse :=
  fun w =>
    match net w config with
    | inl r => (inl r, w ++ [NetCall config])
    | inr e => (inr (ThrownError e), w ++ [NetCall config])
    end.

(** [retryRequest(config, retryCount)].  The recursion is justified by
    the distance of [retryCount] to [MAX_RETRIES]. *)
Equations? retryRequest (config : AxiosRequestConfig) (retryCount : Z) (w : World)
  : Result AxiosResponse * World by wf (Z.to_nat (MAX_RETRIES - retryCount)) lt :=
retryRequest config retryCount w with api config w := {
  | (inl r, w1) := (inl r, w1);
  | (inr error, w1) with Z_lt_dec retryCount MAX_RETRIES := {
    | left Hlt with shouldRetry error := {
      | true := retryRequest config (retryCount + 1)
                  (snd (sleep (1000 * (retryCount + 1)) w1));
      | false := (inr error, w1) };
    | right _ := (inr error, w1) } }.
Proof. unfold MAX_RETRIES in *. lia. Qed.

(** [const errorMessage = error instanceof Error ? error.message : 'Unknown error'] *)
Definition messageOrUnknown (error : Thrown) : string :=
  if instanceofError error then errorMessage error else "Unknown error".

(** [axiosError.response?.data?.detail || axiosError.message] *)
Definition detailOrMessage (error : Thrown) : string :=
  orElse (responseDetail error) (errorMessage error).

(** *** getReviews *)

Definition getReviews_catch (error : Thrown) : Async ResponseData :=
  throw (ThrownError (Error ("Failed to fetch reviews: " +:+ messageOrUnknown error))).

Definition getReviews (params : gmap string JsPrim) : Async ResponseData :=
  try_catch
    (await response <-
       retryRequest
         {| method := GET; url := "/reviews";
            params := Some (spread {[ "page" := JsNum 1; "page_size" := JsNum 10 ]} params);
            body := None |} 0;
     ret (data response))
    getReviews_catch.

(** *** getReview *)

Definition getReview_catch (id : Z) (error : Thrown) : Async ResponseData :=
  if hasResponseKey error && statusIs (responseStatus error) 404 then
    throw (ThrownError (Error ("Review with ID " +:+ pretty id +:+ " not found")))
  else
    throw (ThrownError (Error ("Failed to fetch review: " +:+ messageOrUnknown error))).

Definition getReview (id : Z) : Async ResponseData :=
  try_catch
    (await response <-
       retryRequest
         {| method := GET; url := "/reviews/" +:+ pretty id;
            params := None; body := None |} 0;
     ret (data response))
    (getReview_catch id).

(** *** ingestReviews *)

Definition ingestReviews_catch (error : Thrown) : Async ResponseData :=
  throw (ThrownError (Error ("Failed to ingest reviews: " +:+ messageOrUnknown error))).

Definition ingestReviews (reviews : JsArg) : Async ResponseData :=
  try_catch
    (match reviews with
     | NotArray =>
         throw (ThrownError (Error "Reviews array is required and cannot be empty"))
     | ArrayOf l =>
         if (length l =? 0)%nat then
           throw (ThrownError (Error "Reviews array is required and cannot be empty"))
         else
           await response <-
             retryRequest
               {| method := POST; url := "/ingest"; params := None; body := Some l |} 0;
           ret (data response)
     end)
    ingestReviews_catch.

(** *** suggestReply *)

Definition suggestReply_catch (id : Z) (error : Thrown) : Async ResponseData :=
  if hasResponseKey error && statusIs (responseStatus error) 404 then
    throw (ThrownError (Error ("Review with ID " +:+ pretty id +:+ " not found")))
  else if hasResponseKey error && statusIs (responseStatus error) 503 then
    throw (ThrownError (Error "AI reply generation is currently unavailable"))
  else
    throw (ThrownError (Error ("Failed to generate reply: " +:+ messageOrUnknown error))).

Definition suggestReply (id : Z) : Async ResponseData :=
  try_catch
    (await response <-
       retryRequest
         {| method := POST; url := "/reviews/" +:+ pretty id +:+ "/suggest-reply";
            params := None; body := None |} 0;
     ret (data response))
    (suggestReply_catch id).

(** *** getAnalytics *)

Definition getAnalytics_catch (error : Thrown) : Async ResponseData :=
  if hasResponseKey error then
    if statusIs (responseStatus error) 503 then
      throw (ThrownError (Error "Analytics are currently unavailable"))
    else
      throw (ThrownError (Error ("Failed to fetch analytics: " +:+ detailOrMessage error)))
  else
    throw (ThrownError (Error ("Failed to fetch analytics: " +:+ messageOrUnknown error))).

Definition getAnalytics : Async ResponseData :=
  try_catch
    (await response <-
       retryRequest
         {| method := GET; url := "/analytics"; params := None; body := None |} 0;
     ret (data response))
    getAnalytics_catch.

(** *** searchSimilar *)

Definition searchSimilar_catch (error : Thrown) : Async ResponseData :=
  if hasResponseKey error then
    if statusIs (responseStatus error) 503 then
      throw (ThrownError (Error "Search functionality is currently unavailable"))
    else
      throw (ThrownError (Error ("Failed to search reviews: " +:+ detailOrMessage error)))
  else
    throw (ThrownError (Error ("Failed to search reviews: " +:+ messageOrUnknown error))).

(** The default [k = 5] of the source is supplied by the caller here. *)
Definition searchSimilar (query : string) (k : Z) : Async ResponseData :=
  try_catch
    (if String.eqb query "" || (String.length (trim query) =? 0)%nat then
       throw (ThrownError (Error "Search query is required"))
     else
       await response <-
         retryRequest
           {| method := GET; url := "/search";
              params := Some {[ "q" := JsStr (trim query); "k" := JsNum k ]};
              body := None |} 0;
       ret (data response))
    searchSimilar_catch.

(** *** processReviews *)

Definition processReviews_catch (error : Thrown) : Async ResponseData :=
  if hasResponseKey error then
    if statusIs (responseStatus error) 503 then
      throw (ThrownError (Error "Batch processing is currently unavailable"))
    else
      throw (ThrownError (Error ("Failed to process reviews: " +:+ detailOrMessage error)))
  else
    throw (ThrownError (Error ("Failed to process reviews: " +:+ messageOrUnknown error))).

Definition processReviews : Async ResponseData :=
  try_catch
    (await response <-
       retryRequest
         {| method := POST; url := "/process-reviews"; params := None; body := None |} 0;
     ret (data response))
    processReviews_catch.

(** *** healthCheck: [api.get('/health')], not routed through
    [retryRequest]. *)

Definition healthCheck_catch (error : Thrown) : Async ResponseData :=
  if hasResponseKey error then
    throw (ThrownError (Error ("Health check failed: " +:+ detailOrMessage error)))
  else
    throw (ThrownError (Error ("Health check failed: " +:+ messageOrUnknown error))).

Definition healthCheck : Async ResponseData :=
  try_catch
    (await response <-
       api {| method := GET; url := "/health"; params := None; body := None |};
     ret (data response))
    healthCheck_catch.

End Client.

(** ** The [ConnectionStatus] component *)

(** The values [apiStatus] takes: ['checking'], ['online'], ['offline']. *)
Inductive ApiStatus : Type := checking | online | offline.

(** The two [useState] cells of the component. *)
Record ConnState : Type := mkConn {
  isOnline : bool;
  apiStatus : ApiStatus
}.

(** State at mount: [useState(navigator.onLine)], [useState('checking')]. *)
Definition initialState (navigatorOnLine : bool) : ConnState :=
  {| isOnline := navigatorOnLine; apiStatus := checking |}.

Definition handleOnline (st : ConnState) : ConnState :=
  {| isOnline := true; apiStatus := apiStatus st |}.

Definition handleOffline (st : ConnState) : ConnState :=
  {| isOnline := false; apiStatus := apiStatus st |}.

(** What the component renders: nothing, or one of three banners. *)
Inductive Banner : Type :=
| NoInternetConnection
| ApiServerUnavailable
| CheckingConnection.

Definition render (st : ConnState) : option Banner :=
  if isOnline st && match apiStatus st with online => true | _ => false end then None
  else if negb (isOnline st) then Some NoInternetConnection
  else match apiStatus st with
       | offline => Some ApiServerUnavailable
       | _ => Some CheckingConnection
       end.

(** The connectivity status of the design, read off the rendering. *)
Inductive Connectivity : Type := Checking | Online | Offline.

Definition connectivity (st : ConnState) : Connectivity :=
  match render st with
  | None => Online
  | Some CheckingConnection => Checking
  | Some NoInternetConnection | Some ApiServerUnavailable => Offline
  end.

(** What can happen to a mounted component: the browser's [online] and
    [offline] events, and a run of [checkApiHealth] (once at mount, then
    on every tick of the 30 second interval). *)
Inductive Signal : Type :=
| BrowserOnline
| BrowserOffline
| Poll.

Section Monitor.

Variable net : World -> AxiosRequestConfig -> AxiosResponse + JsError.

(** [checkApiHealth] *)
Definition checkApiHealth (st : ConnState) (w : World) : ConnState * World :=
  match healthCheck net w with
  | (inl _, w1) => ({| isOnline := isOnline st; apiStatus := online |}, w1)
  | (inr _, w1) => ({| isOnline := isOnline st; apiStatus := offline |}, w1)
  end.

Definition step (sig : Signal) (st : ConnState) (w : World) : ConnState * World :=
  match sig with
  | BrowserOnline => (handleOnline st, w)
  | BrowserOffline => (handleOffline st, w)
  | Poll => checkApiHealth st w
  end.

(** The connectivity shown after each signal of a run, oldest first. *)
Fixpoint run (sigs : list Signal) (st : ConnState) (w : World)
  : list Connectivity * (ConnState * World) :=
  match sigs with
  | [] => ([], (st, w))
  | sig :: rest =>
      let '(st1, w1) := step sig st w in
      let '(shown, final) := run rest st1 w1 in
      (connectivity st1 :: shown, final)
  end.

End Monitor.

(** ** Vocabulary of the statements *)

(** The history that [k] failed-and-retried attempts leave behind, the
    first of them made with attempt counter [retryCount]: a call, then
    the backoff wait, [k] times over. *)
Fixpoint retries (config : AxiosRequestConfig) (retryCount : Z) (k : nat) : World :=
  match k with
  | O => []
  | S k' =>
      NetCall config :: Wait (1000 * (retryCount + 1))
        :: retries config (retryCount + 1) k'
  end.

(** What a caller of the axios instance observes of an answer of the
    network. *)
Definition outcome (answer : AxiosResponse + JsError) : Result AxiosResponse :=
  match answer with
  | inl r => inl r
  | inr e => inr (ThrownError e)
  end.

(** The error kinds of the design. *)
Inductive Classification : Type :=
| Timeout
| Unauthorized
| RateLimited
| ServerError
| ServiceUnavailable
| ClientError
| Unknown.

(** Modelled from the spec: the Error Classifier, which the source has no
    function for (the client inspects [code] and [status] in place).  The
    rules are taken in the order the design lists them: a timeout signal
    without a response, then the statuses 401, 429, 503, the remaining
    5xx, the remaining 4xx, and [Unknown] for anything else. *)
Definition classify (error : Thrown) : Classification :=
  match responseStatus error with
  | None =>
      match errorCode error with
      | Some c => if String.eqb c "ECONNABORTED" then Timeout else Unknown
      | None => Unknown
      end
  | Some s =>
      if s =? 401 then Unauthorized
      else if s =? 429 then RateLimited
      else if s =? 503 then ServiceUnavailable
      else if (500 <=? s) && (s <=? 599) then ServerError
      else if (400 <=? s) && (s <=? 499) then ClientError
      else Unknown
  end.

(** The classifications the design calls transient. *)
Definition transient (c : Classification) : bool :=
  match c with
  | Timeout | ServerError | RateLimited => true
  | _ => false
  end.

(** [sub] occurs in [s]. *)
Definition isSubstring (sub s : string) : Prop :=
  exists before after : string, s = before +:+ sub +:+ after.

(** Every character of [s] is white space (the empty string included). *)
Fixpoint whitespaceOnly (s : string) : bool :=
  match s with
  | EmptyString => true
  | String c s' => isWhiteSpace c && whitespaceOnly s'
  end.

(** The members of [Partial<ReviewFilters & Pagination>]. *)
Definition paramKeys : gset string :=
  {[ "location"; "sentiment"; "rating"; "topic"; "search"; "page"; "size" ]}.

(** A parameter object that has only members of its declared type. *)
Definition wellTyped (params : gmap string JsPrim) : Prop :=
  dom params ⊆ paramKeys.

(** The attempt made at history [w] with counter [retryCount] is retried:
    the call goes on as the call with the next counter after the backoff
    wait, so at least one more network call follows. *)
Definition retried (net : World -> AxiosRequestConfig -> AxiosResponse + JsError)
    (config : AxiosRequestConfig) (retryCount : Z) (w : World) : Prop :=
  retryRequest net config retryCount w =
    retryRequest net config (retryCount + 1)
      ((w ++ [NetCall config]) ++ [Wait (1000 * (retryCount + 1))])
  /\ (countCalls w + 2 <= countCalls (snd (retryRequest net config retryCount w)))%nat.

(** The attempt made at history [w] is the last one: its error reaches
    the caller and nothing follows the call. *)
Definition surfaced (net : World -> AxiosRequestConfig -> AxiosResponse + JsError)
    (config : AxiosRequestConfig) (retryCount : Z) (w : World) (e : JsError) : Prop :=
  retryRequest net config retryCount w = (inr (ThrownError e), w ++ [NetCall config]).

(** *** Sample inputs *)

(** The error axios raises for a response whose status is outside 2xx. *)
Definition httpError (s : Z) (d : option string) : JsError :=
  {| message := "Request failed with status code " +:+ pretty s;
     code := Some (if s <? 500 then "ERR_BAD_REQUEST" else "ERR_BAD_RESPONSE");
     response := Present {| status := s; data := {| detail := d; payload := "" |} |} |}.

(** The error axios raises when the 30 second timeout expires. *)
Definition timeoutError : JsError :=
  {| message := "timeout of 30000ms exceeded";
     code := Some "ECONNABORTED";
     response := Undefined |}.

(** A service that answers every call with the same error. *)
Definition alwaysFails (e : JsError) : World -> AxiosRequestConfig -> AxiosResponse + JsError :=
  fun _ _ => inr e.

(** A service that answers every call with the same 200 response. *)
Definition alwaysOk (d : ResponseData) : World -> AxiosRequestConfig -> AxiosResponse + JsError :=
  fun _ _ => inl {| status := 200; data := d |}.

Definition analyticsRequest : AxiosRequestConfig :=
  {| method := GET; url := "/analytics"; params := None; body := None |}.

Definition healthRequest : AxiosRequestConfig :=
  {| method := GET; url := "/health"; params := None; body := None |}.

(** ** The utility methods of [reviewsAPI] *)

(** [isApiError] *)
Definition isApiError (error : Thrown) : bool :=
  hasResponseKey error
  && match responseStatus error with
     | Some s => 400 <=? s
     | None => false
     end.

(** [getErrorMessage]: [detail || error.message || 'An error occurred']
    for an API error. *)
Definition getErrorMessage (error : Thrown) : string :=
  if isApiError error then
    orElse (Some (orElse (responseDetail error) (errorMessage error))) "An error occurred"
  else "An unexpected error occurred".

(** [getErrorStatus] *)
Definition getErrorStatus (error : Thrown) : option Z :=
  if isApiError error then responseStatus error else None.

(** The time a history spends in timer waits, in milliseconds. *)
Fixpoint totalWait (w : World) : Z :=
  match w with
  | [] => 0
  | NetCall _ :: w' => totalWait w'
  | Wait ms :: w' => ms + totalWait w'
  end.

(** The requests of the network calls of a history, oldest first. *)
Fixpoint requests (w : World) : list AxiosRequestConfig :=
  match w with
  | [] => []
  | NetCall config :: w' => config :: requests w'
  | Wait _ :: w' => requests w'
  end.

(** ** Rendering helpers of [ReviewsList] and [ReviewDetail] *)

(** [renderStars]: five stars, star [i] filled ([true]) when
    [i < rating]. *)
Definition renderStars (rating : Z) : list bool :=
  map (fun i => i <? rating) (seqZ 0 5).

(** The text cell of the reviews table:
    [text.length > 100 ? `${text.substring(0, 100)}...` : text]. *)
Definition previewText (text : string) : string :=
  if (100 <? String.length text)%nat then String.substring 0 100 text +:+ "..."
  else text.

(** ** The [ErrorBoundary] component *)

Module ErrorBoundary.

Record State : Type := mkState {
  hasError : bool;
  error : option JsError;
  errorInfo : option string;
  retryCount : Z
}.

(** The state set by the constructor. *)
Definition initial : State :=
  {| hasError := false; error := None; errorInfo := None; retryCount := 0 |}.

(** [getDerivedStateFromError] returns [{ hasError: true }], which React
    merges into the state. *)
Definition getDerivedStateFromError (st : State) : State :=
  {| hasError := true; error := error st; errorInfo := errorInfo st;
     retryCount := retryCount st |}.

(** [componentDidCatch]: [setState({ error, errorInfo })]. *)
Definition componentDidCatch (e : JsError) (info : string) (st : State) : State :=
  {| hasError := hasError st; error := Some e; errorInfo := Some info;
     retryCount := retryCount st |}.

(** [handleRetry] *)
Definition handleRetry (st : State) : State :=
  {| hasError := false; error := None; errorInfo := None;
     retryCount := retryCount st + 1 |}.

(** What [render] returns: the children, or the fallback with one of its
    two buttons.  [TryAgain a m] is the button labelled
    [Try Again (a/m)]. *)
Inductive View : Type :=
| Children
| TryAgain (attempt maxRetries : Z)
| GoHome.

Definition render (st : State) : View :=
  if hasError st then
    let maxRetries := 3 in
    if retryCount st <? maxRetries then TryAgain (retryCount st + 1) maxRetries
    else GoHome
  else Children.

(** What happens to a mounted boundary: a child throws while rendering
    (React then calls [getDerivedStateFromError] and
    [componentDidCatch]), or the user clicks the Try Again button, which
    exists only when [render] shows it. *)
Inductive Event : Type :=
| ChildThrows (e : JsError) (info : string)
| ClickTryAgain.

Definition step (ev : Event) (st : State) : State :=
  match ev with
  | ChildThrows e info => componentDidCatch e info (getDerivedStateFromError st)
  | ClickTryAgain =>
      match render st with
      | TryAgain _ _ => handleRetry st
      | _ => st
      end
  end.

Fixpoint run (evs : list Event) (st : State) : State :=
  match evs with
  | [] => st
  | ev :: rest => run rest (step ev st)
  end.

End ErrorBoundary.

(** ** The [DataIngestion] component *)

Module DataIngestion.

(** A value as [JSON.parse] returns it.  Numbers are the integers; a
    number with a fraction has no value here. *)
#[local] Unset Elimination Schemes.
Inductive Json : Type :=
| JNull
| JBool (b : bool)
| JNum (n : Z)
| JStr (s : string)
| JArr (items : list Json)
| JObj (members : list (string * Json)).
#[local] Set Elimination Schemes.

(** An element of the uploaded array.  The handler annotates it as
    [Review], but at run time it is whatever the file holds. *)
Definition RawReview : Type := Json.

(** The selected file as [handleUpload] gets to see it: the reader fails,
    [JSON.parse] throws a [SyntaxError] with some message, or the text
    parses to an array or to some other value. *)
Inductive FileContent : Type :=
| Unreadable
| Malformed (syntaxMessage : string)
| ParsedOther
| ParsedArray (items : list RawReview).

(** Where JavaScript's conversion to a number puts a value with respect
    to the two comparisons [< 1] and [> 5]: it converts to no number
    ([NaN], for which both comparisons are false), to a number below 1,
    from 1 to 5 or above 5, or the conversion throws a [TypeError]. *)
Inductive Coercion : Type :=
| NotANumber
| BelowOne
| InRange
| AboveFive
| Unconvertible (typeErrorMessage : string).

(** The parts of the JavaScript engine the validation leans on and the
    repository does not contain: the conversion of a string, an array or
    an object to a number, and the message of the [TypeError] raised by
    reading a member of [null]. *)
Class Runtime : Type := {
  coerce : Json -> Coercion;
  nullMemberMessage : string
}.

(** The member of a parsed object under a key; of two members with the
    same key [JSON.parse] keeps the later one. *)
Fixpoint lookupMember (key : string) (members : list (string * Json)) : option Json :=
  match members with
  | [] => None
  | (k, v) :: rest =>
      match lookupMember key rest with
      | Some later => Some later
      | None => if String.eqb k key then Some v else None
      end
  end.

(** [review.key] for a [review] other than [null]: the member of an
    object, and [undefined] for a number, a string, a boolean or an
    array, none of which has a property of the five names read here. *)
Definition member (key : string) (review : Json) : option Json :=
  match review with
  | JObj members => lookupMember key members
  | _ => None
  end.

(** Truthiness of a member that may be [undefined]. *)
Definition truthy (v : option Json) : bool :=
  match v with
  | None => false
  | Some JNull => false
  | Some (JBool b) => b
  | Some (JNum n) => negb (n =? 0)
  | Some (JStr s) => negb (String.eqb s "")
  | Some (JArr _) => true
  | Some (JObj _) => true
  end.

Section Validation.

Context {runtime : Runtime}.

(** A rating with respect to [rating < 1 || rating > 5]: a number is
    compared as it is, [true] converts to 1, [false] and [null] to 0,
    and the engine converts the rest. *)
Definition ratingPlace (rating : Json) : Coercion :=
  match rating with
  | JNum n => if n <? 1 then BelowOne else if 5 <? n then AboveFive else InRange
  | JBool true => InRange
  | JBool false => BelowOne
  | JNull => BelowOne
  | JStr _ => coerce rating
  | JArr _ => coerce rating
  | JObj _ => coerce rating
  end.

(** The body of the validation loop: the message of the error it throws
    for one review, if any.  Reading [review.id] of [null] throws
    first. *)
Definition checkReview (review : RawReview) : option string :=
  match review with
  | JNull => Some nullMemberMessage
  | _ =>
      if negb (truthy (member "id" review)) || negb (truthy (member "location" review))
         || negb (truthy (member "rating" review)) || negb (truthy (member "text" review))
         || negb (truthy (member "date" review))
      then Some "Each review must have id, location, rating, text, and date fields"
      else
        match member "rating" review with
        | Some rating =>
            match ratingPlace rating with
            | BelowOne => Some "Rating must be between 1 and 5"
            | AboveFive => Some "Rating must be between 1 and 5"
            | Unconvertible typeErrorMessage => Some typeErrorMessage
            | NotANumber => None
            | InRange => None
            end
        | None => None
        end
  end.

(** [for (const review of reviews) { ... }]: the first error wins. *)
Fixpoint validateReviews (reviews : list RawReview) : option string :=
  match reviews with
  | [] => None
  | review :: rest =>
      match checkReview review with
      | Some msg => Some msg
      | None => validateReviews rest
      end
  end.

End Validation.



(** An element as the [Review] in the body of the request.  [Review]
    fixes the type of every member: a member of another type reads as 0,
    as the empty string or as absent. *)
Definition asReview (review : RawReview) : Review :=
  {| id := match member "id" review with Some (JNum n) => n | _ => 0 end;
     location := match member "location" review with Some (JStr s) => s | _ => "" end;
     rating := match member "rating" review with Some (JNum n) => n | _ => 0 end;
     text := match member "text" review with Some (JStr s) => s | _ => "" end;
     date := match member "date" review with Some (JStr s) => s | _ => "" end;
     sentiment := match member "sentiment" review with Some (JStr s) => Some s | _ => None end;
     topic := match member "topic" review with Some (JStr s) => Some s | _ => None end |}.

(** The [useState] cells of the component. *)
Record State : Type := mkState {
  file : option FileContent;
  uploading : bool;
  message : string;
  messageType : string;
  processing : bool
}.

(** [handleFileChange] *)
Definition handleFileChange (selectedFile : option FileContent) (st : State) : State :=
  {| file := selectedFile; uploading := uploading st; message := "";
     messageType := messageType st; processing := processing st |}.

Section WithService.

Context {runtime : Runtime}.

Variable net : World -> AxiosRequestConfig -> AxiosResponse + JsError.

(** The [message] member of a response body. *)
Variable resultMessage : ResponseData -> string.

(** The [try] block of [handleUpload]. *)
Definition uploadFile (content : FileContent) : Async ResponseData :=
  match content with
  | Unreadable => throw ThrownOther
  | Malformed syntaxMessage => throw (ThrownError (Error syntaxMessage))
  | ParsedOther => throw (ThrownError (Error "File must contain an array of reviews"))
  | ParsedArray items =>
      match validateReviews items with
      | Some msg => throw (ThrownError (Error msg))
      | None => ingestReviews net (ArrayOf (map asReview items))
      end
  end.

(** [handleUpload], from the click to the [finally] clause. *)
Definition handleUpload (st : State) (w : World) : State * World :=
  match file st with
  | None =>
      ({| file := None; uploading := uploading st;
          message := "Please select a file to upload"; messageType := "error";
          processing := processing st |}, w)
  | Some content =>
      match uploadFile content w with
      | (inl result, w1) =>
          ({| file := None; uploading := false;
              message := resultMessage result; messageType := "success";
              processing := processing st |}, w1)
      | (inr error, w1) =>
          ({| file := Some content; uploading := false;
              message := "Error: " +:+ messageOrUnknown error; messageType := "error";
              processing := processing st |}, w1)
      end
  end.

(** [handleProcessReviews] *)
Definition handleProcessReviews (st : State) (w : World) : State * World :=
  match processReviews net w with
  | (inl result, w1) =>
      ({| file := file st; uploading := uploading st;
          message := resultMessage result; messageType := "success";
          processing := false |}, w1)
  | (inr error, w1) =>
      ({| file := file st; uploading := uploading st;
          message := "Error: " +:+ messageOrUnknown error; messageType := "error";
          processing := false |}, w1)
  end.

End WithService.

End DataIngestion.

(** ** The [ReviewsList] component *)

Module ReviewsList.

(** [keyof ReviewFilters] *)
Inductive FilterKey : Type :=
| LocationKey
| SentimentKey
| RatingKey
| TopicKey
| SearchKey.

Definition keyName (key : FilterKey) : string :=
  match key with
  | LocationKey => "location"
  | SentimentKey => "sentiment"
  | RatingKey => "rating"
  | TopicKey => "topic"
  | SearchKey => "search"
  end.

(** The [pagination] cell. *)
Record PageInfo : Type := mkPageInfo {
  page : Z;
  size : Z;
  total : Z;
  total_pages : Z
}.

Record State : Type := mkState {
  reviews : list Review;
  loading : bool;
  error : option string;
  filters : gmap string JsPrim;
  pagination : PageInfo
}.

(** The initial values of the [useState] cells. *)
Definition initial : State :=
  {| reviews := [];
     loading := true;
     error := None;
     filters := {[ "location" := JsStr ""; "sentiment" := JsStr ""; "search" := JsStr "" ]};
     pagination := {| page := 1; size := 10; total := 0; total_pages := 0 |} |}.

(** [{ ...filters, page: pagination.page, size: pagination.size }] *)
Definition loadParams (st : State) : gmap string JsPrim :=
  <[ "size" := JsNum (size (pagination st)) ]>
    (<[ "page" := JsNum (page (pagination st)) ]> (filters st)).

(** [handleFilterChange] *)
Definition handleFilterChange (key : FilterKey) (value : string) (st : State) : State :=
  {| reviews := reviews st; loading := loading st; error := error st;
     filters := <[ keyName key := JsStr value ]> (filters st);
     pagination := {| page := 1; size := size (pagination st);
                      total := total (pagination st);
                      total_pages := total_pages (pagination st) |} |}.

(** [handlePageChange] *)
Definition handlePageChange (newPage : Z) (st : State) : State :=
  {| reviews := reviews st; loading := loading st; error := error st;
     filters := filters st;
     pagination := {| page := newPage; size := size (pagination st);
                      total := total (pagination st);
                      total_pages := total_pages (pagination st) |} |}.

(** [pagination.page || 1] *)
Definition currentPage (st : State) : Z :=
  if page (pagination st) =? 0 then 1 else page (pagination st).

(** The pagination bar is rendered when there are reviews and more than
    one page. *)
Definition paginationShown (st : State) : bool :=
  negb (length (reviews st) =? 0)%nat && (1 <? total_pages (pagination st)).

(** What the user can do: change a filter, press Refresh, or press a
    button of the pagination bar ([ClickPage i] is the [i]-th numbered
    button, counted from 0). *)
Inductive Event : Type :=
| FilterChange (key : FilterKey) (value : string)
| ClickRefresh
| ClickPrevious
| ClickNext
| ClickPage (i : nat).

Section WithService.

Variable net : World -> AxiosRequestConfig -> AxiosResponse + JsError.

(** The [reviews], [total] and [total_pages] members of a response
    body. *)
Variable reviewsOf : ResponseData -> list Review.
Variable totalOf : ResponseData -> Z.
Variable totalPagesOf : ResponseData -> Z.

(** [loadReviews], from [setLoading(true)] to the [finally] clause. *)
Definition loadReviews (st : State) (w : World) : State * World :=
  match getReviews net (loadParams st) w with
  | (inl data, w1) =>
      ({| reviews := reviewsOf data; loading := false; error := None;
          filters := filters st;
          pagination := {| page := page (pagination st); size := size (pagination st);
                           total := totalOf data;
                           total_pages := totalPagesOf data |} |}, w1)
  | (inr _, w1) =>
      ({| reviews := reviews st; loading := false;
          error := Some "Failed to load reviews. Please try again.";
          filters := filters st; pagination := pagination st |}, w1)
  end.

(** A page button: [handlePageChange], then the effect, which reloads
    when [pagination.page] has changed. *)
Definition changePage (newPage : Z) (st : State) (w : World) : State * World :=
  if newPage =? page (pagination st) then (handlePageChange newPage st, w)
  else loadReviews (handlePageChange newPage st) w.

Definition step (ev : Event) (st : State) (w : World) : State * World :=
  match ev with
  | FilterChange key value => loadReviews (handleFilterChange key value st) w
  | ClickRefresh => loadReviews st w
  | ClickPrevious =>
      if paginationShown st && negb (currentPage st =? 1)
      then changePage (currentPage st - 1) st w
      else (st, w)
  | ClickNext =>
      if paginationShown st && negb (currentPage st =? total_pages (pagination st))
      then changePage (currentPage st + 1) st w
      else (st, w)
  | ClickPage i =>
      if paginationShown st && (Z.of_nat i <? Z.min 5 (total_pages (pagination st)))
      then changePage (Z.of_nat i + 1) st w
      else (st, w)
  end.

(** The component after mounting (the effect loads once) and a sequence
    of user actions. *)
Fixpoint run (evs : list Event) (st : State) (w : World) : State * World :=
  match evs with
  | [] => (st, w)
  | ev :: rest => let '(st1, w1) := step ev st w in run rest st1 w1
  end.

Definition mount (evs : list Event) (w : World) : State * World :=
  let '(st1, w1) := loadReviews initial w in run evs st1 w1.

End WithService.

End ReviewsList.

(** ** The [ReviewDetail] component: similar-review search *)

Module ReviewDetail.

Record State : Type := mkState {
  similarReviews : string;
  searching : bool
}.

Section WithService.

Variable net : World -> AxiosRequestConfig -> AxiosResponse + JsError.

(** The [results] member of a response body, kept opaque. *)
Variable resultsOf : ResponseData -> string.

(** [handleSearchSimilar] *)
Definition handleSearchSimilar (searchQuery : string) (st : State) (w : World)
  : State * World :=
  if String.eqb (trim searchQuery) "" then (st, w)
  else
    match searchSimilar net searchQuery 5 w with
    | (inl data, w1) => ({| similarReviews := resultsOf data; searching := false |}, w1)
    | (inr _, w1) => ({| similarReviews := similarReviews st; searching := false |}, w1)
    end.

End WithService.

End ReviewDetail.

(** A service that fails the first [j] calls with [e] and answers [r]
    from then on. *)
Definition recoversAfter (j : nat) (e : JsError) (r : AxiosResponse)
  : World -> AxiosRequestConfig -> AxiosResponse + JsError :=
  fun w _ => if (countCalls w <? j)%nat then inr e else inl r.

(** The condition under which [shouldRetry] accepts an error: the timeout
    code, or a response with status 429 or at least 500. *)
Definition retryable (e : JsError) : Prop :=
  code e = Some "ECONNABORTED"
  \/ exists r, response e = Present r /\ (500 <= status r \/ status r = 429).

(** A result that, when it is a failure, is a plain [new Error(msg)]:
    an [Error] object without [code] and without [response]. *)
Definition failsPlainly {A : Type} (r : Result A) : Prop :=
  match r with
  | inl _ => True
  | inr error => exists msg, error = ThrownError (Error msg)
  end.

(** A sequence of browser connectivity events, [true] for [online] and
    [false] for [offline]. *)
Definition browserSignals (flags : list bool) : list Signal :=
  map (fun flag : bool => if flag then BrowserOnline else BrowserOffline) flags.

(** The requests built by [suggestReply], [searchSimilar],
    [processReviews], [getReview] and [getReviews]. *)
Definition suggestReplyRequest (id : Z) : AxiosRequestConfig :=
  {| method := POST; url := "/reviews/" +:+ pretty id +:+ "/suggest-reply";
     params := None; body := None |}.

Definition searchRequest (query : string) (k : Z) : AxiosRequestConfig :=
  {| method := GET; url := "/search";
     params := Some {[ "q" := JsStr (trim query); "k" := JsNum k ]};
     body := None |}.

Definition processRequest : AxiosRequestConfig :=
  {| method := POST; url := "/process-reviews"; params := None; body := None |}.

Definition reviewRequest (id : Z) : AxiosRequestConfig :=
  {| method := GET; url := "/reviews/" +:+ pretty id; params := None; body := None |}.

Definition reviewsRequest (supplied : gmap string JsPrim) : AxiosRequestConfig :=
  {| method := GET; url := "/reviews";
     params := Some (spread {[ "page" := JsNum 1; "page_size" := JsNum 10 ]} supplied);
     body := None |}.

(** Number of [Poll] signals in a run of the connection monitor. *)
Fixpoint pollCount (sigs : list Signal) : nat :=
  match sigs with
  | [] => O
  | Poll :: rest => S (pollCount rest)
  | _ :: rest => pollCount rest
  end.



(** An engine as far as the samples below need it: the strings, arrays
    and objects they use as ratings convert to no number. *)
Definition sampleRuntime : DataIngestion.Runtime :=
  {| DataIngestion.coerce := fun _ => DataIngestion.NotANumber;
     DataIngestion.nullMemberMessage := "Cannot read properties of null (reading 'id')" |}.

(** The request [ingestReviews] builds for a list of reviews. *)
Definition ingestRequest (reviews : list Review) : AxiosRequestConfig :=
  {| method := POST; url := "/ingest"; params := None; body := Some reviews |}.

(** The names of the members of [ReviewFilters]. *)
Definition filterKeys : gset string :=
  {[ "location"; "sentiment"; "rating"; "topic"; "search" ]}.

(** A request for a page of reviews whose query names page [p] of
    [s] reviews, next to the fixed [page_size = 10]. *)
Definition asksForPage (p s : Z) (config : AxiosRequestConfig) : Prop :=
  method config = GET /\ url config = "/reviews"
  /\ exists query,
       params config = Some query
       /\ query !! "page" = Some (JsNum p)
       /\ query !! "size" = Some (JsNum s)
       /\ query !! "page_size" = Some (JsNum 10).

(** A request of the reviews list for some page that is at least 1. *)
Definition asksForValidPage (config : AxiosRequestConfig) : Prop :=
  exists p s, 1 <= p /\ asksForPage p s config.


(** Case analysis on the comparisons of a status with literals. *)
Ltac crush_status :=
  repeat match goal with
         | |- context [Z.eqb ?a ?b] => destruct (Z.eqb_spec a b)
         | |- context [Z.leb ?a ?b] => destruct (Z.leb_spec a b)
         | H : context [Z.eqb ?a ?b] |- _ => destruct (Z.eqb_spec a b)
         | H : context [Z.leb ?a ?b] |- _ => destruct (Z.leb_spec a b)
         end;
  simpl in *; try congruence; try lia.

(** ** The retry engine *)

Section RetryEngine.

Variable net : World -> AxiosRequestConfig -> AxiosResponse + JsError.

Lemma retryRequest_success config n w r :
  net w config = inl r ->
  retryRequest net config n w = (inl r, w ++ [NetCall config]).
Proof.
  intros H. rewrite retryRequest_equation_1. unfold api. rewrite H. reflexivity.
Qed.

Lemma retryRequest_again config n w e :
  net w config = inr e -> n < MAX_RETRIES -> shouldRetry (ThrownError e) = true ->
  retryRequest net config n w =
  retryRequest net config (n + 1) ((w ++ [NetCall config]) ++ [Wait (1000 * (n + 1))]).
Proof.
  intros H Hn Hs. rewrite retryRequest_equation_1. unfold api. rewrite H. simpl.
  destruct (Z_lt_dec n MAX_RETRIES); [|lia]. simpl. rewrite Hs. reflexivity.
Qed.

Lemma retryRequest_stop config n w e :
  net w config = inr e ->
  MAX_RETRIES <= n \/ shouldRetry (ThrownError e) = false ->
  retryRequest net config n w = (inr (ThrownError e), w ++ [NetCall config]).
Proof.
  intros H Hn. rewrite retryRequest_equation_1. unfold api. rewrite H. simpl.
  destruct (Z_lt_dec n MAX_RETRIES); simpl.
  - destruct Hn as [Hn|Hn]; [lia|]. rewrite Hn. reflexivity.
  - reflexivity.
Qed.

(** One logical call is a run of at most [MAX_RETRIES - retryCount]
    retried attempts followed by a last attempt, whose answer is the
    result. *)
Lemma retryRequest_shape config n w :
  exists k : nat,
    Z.of_nat k <= Z.max 0 (MAX_RETRIES - n) /\
    snd (retryRequest net config n w) = w ++ retries config n k ++ [NetCall config] /\
    fst (retryRequest net config n w) = outcome (net (w ++ retries config n k) config).
Proof.
  remember (Z.to_nat (MAX_RETRIES - n)) as m eqn:Hm.
  revert n w Hm. induction m as [|m IH]; intros n w Hm.
  - exists O. simpl. rewrite app_nil_r. split; [lia|].
    destruct (net w config) as [r|e] eqn:Hnet.
    + rewrite (retryRequest_success _ _ _ _ Hnet). auto.
    + rewrite (retryRequest_stop _ _ _ _ Hnet); [auto|]. left. lia.
  - destruct (net w config) as [r|e] eqn:Hnet.
    + exists O. simpl. rewrite app_nil_r, Hnet.
      rewrite (retryRequest_success _ _ _ _ Hnet). split; [lia|auto].
    + destruct (shouldRetry (ThrownError e)) eqn:Hs.
      * assert (Hlt : n < MAX_RETRIES) by lia.
        rewrite (retryRequest_again _ _ _ _ Hnet Hlt Hs).
        destruct (IH (n + 1) ((w ++ [NetCall config]) ++ [Wait (1000 * (n + 1))]))
          as (k & Hk & Hsnd & Hfst); [lia|].
        exists (S k). rewrite Hsnd, Hfst. simpl.
        rewrite <- !app_assoc. simpl. split; [lia|auto].
      * exists O. simpl. rewrite app_nil_r, Hnet.
        rewrite (retryRequest_stop _ _ _ _ Hnet); [|auto]. split; [lia|auto].
Qed.

End RetryEngine.

Lemma countCalls_app w1 w2 : countCalls (w1 ++ w2) = (countCalls w1 + countCalls w2)%nat.
Proof. induction w1 as [|[c|ms] w1 IH]; simpl; lia. Qed.

Lemma waits_app w1 w2 : waits (w1 ++ w2) = waits w1 ++ waits w2.
Proof. induction w1 as [|[c|ms] w1 IH]; simpl; congruence. Qed.

Lemma countCalls_retries config n k : countCalls (retries config n k) = k.
Proof. revert n. induction k as [|k IH]; intros n; simpl; [|rewrite IH]; reflexivity. Qed.

Lemma waits_retries_lookup config n k i :
  (i < k)%nat ->
  waits (retries config n k) !! i = Some (1000 * (n + Z.of_nat i + 1)).
Proof.
  revert n i. induction k as [|k IH]; intros n i Hi; [lia|].
  destruct i as [|i]; simpl.
  - do 2 f_equal. lia.
  - rewrite IH by lia. do 2 f_equal. lia.
Qed.

Lemma length_waits_retries config n k : length (waits (retries config n k)) = k.
Proof. revert n. induction k as [|k IH]; intros n; simpl; [|rewrite IH]; reflexivity. Qed.

(** *** The classifications and the retry decision *)

Lemma transient_shouldRetry error :
  transient (classify error) = true -> shouldRetry error = true.
Proof.
  unfold classify, shouldRetry, statusIs.
  destruct (responseStatus error) as [s|]; destruct (errorCode error) as [c|];
    try destruct (String.eqb c "ECONNABORTED"); simpl; try congruence; try reflexivity;
    intros H; crush_status.
Qed.

Lemma unavailable_shouldRetry error :
  classify error = ServiceUnavailable -> shouldRetry error = true.
Proof.
  unfold classify, shouldRetry, statusIs.
  destruct (responseStatus error) as [s|]; destruct (errorCode error) as [c|];
    try destruct (String.eqb c "ECONNABORTED"); simpl; try congruence; try reflexivity;
    intros H; crush_status.
Qed.

Lemma client_shouldRetry error :
  classify error = Unauthorized \/ classify error = ClientError ->
  errorCode error <> Some "ECONNABORTED" ->
  shouldRetry error = false.
Proof.
  unfold classify, shouldRetry, statusIs. intros H Hc.
  assert (Hcode : match errorCode error with
                  | Some c => String.eqb c "ECONNABORTED"
                  | None => false
                  end = false).
  { destruct (errorCode error) as [c|]; [|reflexivity].
    destruct (String.eqb_spec c "ECONNABORTED"); [congruence|reflexivity]. }
  rewrite Hcode. clear Hcode Hc.
  destruct (responseStatus error) as [s|]; simpl.
  - destruct H as [H|H]; crush_status.
  - destruct (errorCode error) as [c|]; [destruct (String.eqb c "ECONNABORTED")|];
      destruct H; congruence.
Qed.

Section RetryPolicy.

Variable net : World -> AxiosRequestConfig -> AxiosResponse + JsError.

Lemma retried_intro config n w e :
  net w config = inr e -> n < MAX_RETRIES -> shouldRetry (ThrownError e) = true ->
  retried net config n w.
Proof.
  intros Hnet Hn Hs. unfold retried.
  rewrite (retryRequest_again net _ _ _ _ Hnet Hn Hs). split; [reflexivity|].
  destruct (retryRequest_shape net config (n + 1)
              ((w ++ [NetCall config]) ++ [Wait (1000 * (n + 1))]))
    as (k & _ & Hsnd & _).
  rewrite Hsnd, !countCalls_app. simpl. lia.
Qed.

(** C1 (as amended): a failure classified Timeout, ServerError or
    RateLimited is retried while the attempt counter is below 3; so is a
    ServiceUnavailable (503) failure, which the engine treats as any
    other status of 500 or more; a failure classified Unauthorized or
    ClientError whose transport code is not ECONNABORTED is never
    retried, whatever the attempt counter. *)
Theorem retry_policy config n w e (Hfail : net w config = inr e) :
  (transient (classify (ThrownError e)) = true -> n < MAX_RETRIES ->
   retried net config n w)
  /\ (classify (ThrownError e) = ServiceUnavailable -> n < MAX_RETRIES ->
      retried net config n w)
  /\ (classify (ThrownError e) = Unauthorized \/ classify (ThrownError e) = ClientError ->
      code e <> Some "ECONNABORTED" ->
      surfaced net config n w e).
Proof.
  split; [|split].
  - intros Ht Hn. apply (retried_intro _ _ _ e); auto using transient_shouldRetry.
  - intros Hu Hn. apply (retried_intro _ _ _ e); auto using unavailable_shouldRetry.
  - intros Hc Hcode. apply retryRequest_stop; [assumption|].
    right. apply client_shouldRetry; assumption.
Qed.

(** C2: the waits of a logical call are 1000 ms, 2000 ms, 3000 ms in this
    order: the wait before retry [i] (counting from 0) is
    [1000 * (i + 1)] ms, and each wait separates two attempts. *)
Theorem backoff_delays config w :
  exists k : nat,
    (k <= 3)%nat /\
    snd (retryRequest net config 0 w) = w ++ retries config 0 k ++ [NetCall config] /\
    waits (snd (retryRequest net config 0 w)) = waits w ++ waits (retries config 0 k) /\
    length (waits (retries config 0 k)) = k /\
    forall i : nat, (i < k)%nat ->
      waits (retries config 0 k) !! i = Some (1000 * (Z.of_nat i + 1)).
Proof.
  destruct (retryRequest_shape net config 0 w) as (k & Hk & Hsnd & _).
  exists k. unfold MAX_RETRIES in Hk. split; [lia|]. split; [exact Hsnd|].
  split; [|split].
  - rewrite Hsnd, !waits_app. simpl. rewrite app_nil_r. reflexivity.
  - apply length_waits_retries.
  - intros i Hi. rewrite (waits_retries_lookup _ _ _ _ Hi). do 2 f_equal.
Qed.

(** C3: when every attempt of a logical call fails with a transient
    classification, [retryRequest] makes exactly four attempts, separated
    by the three backoff waits, and then throws the error of the fourth
    attempt; and whatever the service answers and whatever the starting
    counter, the number of attempts is bounded, so the recursion ends. *)
Theorem retry_budget_exhausted config w
    (Hfail : forall w', exists e,
        net w' config = inr e /\ transient (classify (ThrownError e)) = true) :
  (exists e,
      retryRequest net config 0 w =
        (inr (ThrownError e), w ++ retries config 0 3 ++ [NetCall config])
      /\ net (w ++ retries config 0 3) config = inr e)
  /\ countCalls (snd (retryRequest net config 0 w)) = (countCalls w + 4)%nat
  /\ forall net' n w',
      (countCalls (snd (retryRequest net' config n w'))
       <= countCalls w' + 1 + Z.to_nat (MAX_RETRIES - n))%nat.
Proof.
  assert (Hgo : forall n w', n < MAX_RETRIES ->
            retryRequest net config n w' =
            retryRequest net config (n + 1)
              ((w' ++ [NetCall config]) ++ [Wait (1000 * (n + 1))])).
  { intros n w' Hn. destruct (Hfail w') as (e & He & Ht).
    apply (retryRequest_again net _ _ _ e); auto using transient_shouldRetry. }
  assert (Hrun : exists e,
      retryRequest net config 0 w =
        (inr (ThrownError e), w ++ retries config 0 3 ++ [NetCall config])
      /\ net (w ++ retries config 0 3) config = inr e).
  { destruct (Hfail (w ++ retries config 0 3)) as (e & He & Ht).
    exists e. split; [|exact He].
    rewrite (Hgo 0), (Hgo (0 + 1)), (Hgo (0 + 1 + 1)) by (unfold MAX_RETRIES; lia).
    simpl in He. rewrite <- !app_assoc. simpl.
    rewrite (retryRequest_stop net _ _ _ e).
    - rewrite <- !app_assoc. reflexivity.
    - exact He.
    - left. unfold MAX_RETRIES. lia. }
  split; [exact Hrun|]. split.
  - destruct Hrun as (e & Hrun & _). rewrite Hrun. simpl.
    rewrite !countCalls_app. simpl. lia.
  - intros net' n w'.
    destruct (retryRequest_shape net' config n w') as (k & Hk & Hsnd & _).
    rewrite Hsnd, !countCalls_app, countCalls_retries. simpl. lia.
Qed.

End RetryPolicy.

(** C1 (as stated) fails: a 503 answer is classified ServiceUnavailable,
    yet the engine does not surface it after the first attempt; it makes
    all four attempts. *)
Lemma retry_policy_503_is_retried :
  classify (ThrownError (httpError 503 None)) = ServiceUnavailable
  /\ alwaysFails (httpError 503 None) [] analyticsRequest = inr (httpError 503 None)
  /\ ~ surfaced (alwaysFails (httpError 503 None)) analyticsRequest 0 [] (httpError 503 None)
  /\ countCalls (snd (retryRequest (alwaysFails (httpError 503 None)) analyticsRequest 0 []))
     = 4%nat.
Proof.
  split; [reflexivity|]. split; [reflexivity|]. split; [|reflexivity].
  unfold surfaced. intros H.
  apply (f_equal (fun x => countCalls (snd x))) in H.
  vm_compute in H. discriminate H.
Qed.

Lemma retry_policy_witness :
  retried (alwaysFails timeoutError) analyticsRequest 0 []
  /\ retried (alwaysFails (httpError 503 None)) analyticsRequest 2 []
  /\ surfaced (alwaysFails (httpError 401 None)) analyticsRequest 0 [] (httpError 401 None).
Proof.
  split; [|split].
  - apply (proj1 (retry_policy (alwaysFails timeoutError) analyticsRequest 0 []
                    timeoutError eq_refl));
      [reflexivity | unfold MAX_RETRIES; lia].
  - apply (proj1 (proj2 (retry_policy (alwaysFails (httpError 503 None)) analyticsRequest 2 []
                           (httpError 503 None) eq_refl)));
      [reflexivity | unfold MAX_RETRIES; lia].
  - apply (proj2 (proj2 (retry_policy (alwaysFails (httpError 401 None)) analyticsRequest 0 []
                           (httpError 401 None) eq_refl)));
      [left; reflexivity | simpl; discriminate].
Defined.

Lemma retry_budget_exhausted_witness :
  (forall w', exists e,
      alwaysFails (httpError 500 None) w' analyticsRequest = inr e
      /\ transient (classify (ThrownError e)) = true)
  /\ countCalls (snd (retryRequest (alwaysFails (httpError 500 None)) analyticsRequest 0 []))
     = 4%nat.
Proof.
  assert (H : forall w', exists e,
             alwaysFails (httpError 500 None) w' analyticsRequest = inr e
             /\ transient (classify (ThrownError e)) = true).
  { intros w'. exists (httpError 500 None). split; reflexivity. }
  split; [exact H|].
  exact (proj1 (proj2 (retry_budget_exhausted (alwaysFails (httpError 500 None))
                         analyticsRequest [] H))).
Defined.

(** ** The facade *)

Lemma append_assoc (a b c : string) : (a +:+ b) +:+ c = a +:+ (b +:+ c).
Proof.
  induction a as [|x a IH]; [reflexivity|].
  change (String x ((a +:+ b) +:+ c) = String x (a +:+ (b +:+ c))).
  f_equal. exact IH.
Qed.

Lemma trimStart_whitespaceOnly s : whitespaceOnly s = true -> trimStart s = "".
Proof.
  induction s as [|c s IH]; simpl; [reflexivity|].
  intros H. apply andb_prop in H. destruct H as [Hc Hs].
  rewrite Hc. apply IH, Hs.
Qed.

Lemma trim_whitespaceOnly s : whitespaceOnly s = true -> trim s = "".
Proof. intros H. unfold trim. rewrite (trimStart_whitespaceOnly _ H). reflexivity. Qed.

Section Facade.

Variable net : World -> AxiosRequestConfig -> AxiosResponse + JsError.

(** An operation that wraps one logical call leaves the history of that
    call, provided its handler only throws. *)
Lemma facade_world config handler w :
  (forall error w', snd (handler error w') = w') ->
  snd (try_catch
         (await response <- retryRequest net config 0; ret (data response))
         handler w)
  = snd (retryRequest net config 0 w).
Proof.
  intros Hh. unfold try_catch, bind, ret.
  destruct (retryRequest net config 0 w) as [[r|error] w1]; simpl; auto.
Qed.

Lemma facade_result config handler w :
  fst (try_catch
         (await response <- retryRequest net config 0; ret (data response))
         handler w)
  = match fst (retryRequest net config 0 w) with
    | inl r => inl (data r)
    | inr error => fst (handler error (snd (retryRequest net config 0 w)))
    end.
Proof.
  unfold try_catch, bind, ret.
  destruct (retryRequest net config 0 w) as [[r|error] w1]; reflexivity.
Qed.

(** C4: [ingestReviews] on an empty array or on a value that is not an
    array, and [searchSimilar] on an empty or whitespace-only query, fail
    with the validation message and leave the history untouched: no
    network call is made. *)
Theorem validation_fails_fast w k query (Hblank : whitespaceOnly query = true) :
  ingestReviews net (ArrayOf []) w =
    (inr (ThrownError
            (Error "Failed to ingest reviews: Reviews array is required and cannot be empty")),
     w)
  /\ ingestReviews net NotArray w =
       (inr (ThrownError
               (Error "Failed to ingest reviews: Reviews array is required and cannot be empty")),
        w)
  /\ searchSimilar net "" k w =
       (inr (ThrownError (Error "Failed to search reviews: Search query is required")), w)
  /\ searchSimilar net query k w =
       (inr (ThrownError (Error "Failed to search reviews: Search query is required")), w).
Proof.
  split; [reflexivity|]. split; [reflexivity|]. split; [reflexivity|].
  unfold searchSimilar, try_catch.
  rewrite (trim_whitespaceOnly _ Hblank). simpl. rewrite orb_true_r. reflexivity.
Qed.

End Facade.

Lemma validation_fails_fast_witness :
  whitespaceOnly "   " = true
  /\ searchSimilar (alwaysOk {| detail := None; payload := "{}" |}) "   " 5 [] =
       (inr (ThrownError (Error "Failed to search reviews: Search query is required")), []).
Proof.
  split; [reflexivity|].
  apply (proj2 (proj2 (proj2
    (validation_fails_fast (alwaysOk {| detail := None; payload := "{}" |}) [] 5 "   "
       eq_refl)))).
Defined.

(** *** getReviews: defaults and caller-supplied parameters *)

Lemma wellTyped_no_page_size (supplied : gmap string JsPrim) :
  wellTyped supplied -> supplied !! "page_size" = None.
Proof.
  intros Htyped. apply not_elem_of_dom. intros Hin.
  apply Htyped in Hin. unfold paramKeys in Hin.
  rewrite !elem_of_union, !elem_of_singleton in Hin.
  intuition discriminate.
Qed.

Lemma spread_supplied (defaults supplied : gmap string JsPrim) key v :
  supplied !! key = Some v -> spread defaults supplied !! key = Some v.
Proof. intros H. unfold spread. apply lookup_union_Some_l, H. Qed.

Lemma spread_default (defaults supplied : gmap string JsPrim) key :
  supplied !! key = None -> spread defaults supplied !! key = defaults !! key.
Proof. intros H. unfold spread. apply lookup_union_r, H. Qed.

Section Listing.

Variable net : World -> AxiosRequestConfig -> AxiosResponse + JsError.

(** Every network call of [getReviews] carries the one request it
    builds. *)
Lemma getReviews_issues (supplied : gmap string JsPrim) w :
  exists k : nat,
    snd (getReviews net supplied w) =
      w ++ retries
             {| method := GET; url := "/reviews";
                params := Some (spread {[ "page" := JsNum 1; "page_size" := JsNum 10 ]}
                                  supplied);
                body := None |} 0 k
        ++ [NetCall
              {| method := GET; url := "/reviews";
                 params := Some (spread {[ "page" := JsNum 1; "page_size" := JsNum 10 ]}
                                   supplied);
                 body := None |}].
Proof.
  unfold getReviews. rewrite facade_world by reflexivity.
  destruct (retryRequest_shape net
              {| method := GET; url := "/reviews";
                 params := Some (spread {[ "page" := JsNum 1; "page_size" := JsNum 10 ]}
                                   supplied);
                 body := None |} 0 w) as (k & _ & Hsnd & _).
  exists k. exact Hsnd.
Qed.

(** C5: [getReviews] issues [GET /reviews]; when the caller supplies no
    pagination the query carries [page = 1] and the size default
    [page_size = 10]; and in every call each parameter the caller
    supplies appears in the query with the caller's value, the defaults
    filling only the keys the caller left out. *)
Theorem getReviews_defaults (supplied : gmap string JsPrim) w
    (Htyped : wellTyped supplied) :
  exists (config : AxiosRequestConfig) (query : gmap string JsPrim) (k : nat),
    snd (getReviews net supplied w) = w ++ retries config 0 k ++ [NetCall config]
    /\ method config = GET
    /\ url config = "/reviews"
    /\ params config = Some query
    /\ (supplied !! "page" = None -> supplied !! "size" = None ->
        query !! "page" = Some (JsNum 1) /\ query !! "page_size" = Some (JsNum 10))
    /\ (forall key v, supplied !! key = Some v -> query !! key = Some v)
    /\ (forall key, supplied !! key = None ->
        query !! key
        = ({[ "page" := JsNum 1; "page_size" := JsNum 10 ]} : gmap string JsPrim) !! key).
Proof.
  destruct (getReviews_issues supplied w) as (k & Hk).
  eexists _, _, k. split; [exact Hk|]. simpl.
  split; [reflexivity|]. split; [reflexivity|]. split; [reflexivity|].
  split; [|split].
  - intros Hpage _. split.
    + rewrite spread_default by exact Hpage. reflexivity.
    + rewrite spread_default by (apply wellTyped_no_page_size, Htyped). reflexivity.
  - intros key v. apply spread_supplied.
  - intros key. apply spread_default.
Qed.

(** C10: the default page size travels under the key [page_size] while
    the caller's parameters are spread verbatim: a supplied [size] sits in
    the query next to [page_size = 10] and never replaces it, whereas a
    supplied [page] replaces the default page. *)
Theorem getReviews_size_beside_page_size (supplied : gmap string JsPrim) w
    (Htyped : wellTyped supplied) :
  exists (config : AxiosRequestConfig) (query : gmap string JsPrim) (k : nat),
    snd (getReviews net supplied w) = w ++ retries config 0 k ++ [NetCall config]
    /\ params config = Some query
    /\ query !! "page_size" = Some (JsNum 10)
    /\ (forall v, supplied !! "size" = Some v -> query !! "size" = Some v)
    /\ (forall p, supplied !! "page" = Some p -> query !! "page" = Some p).
Proof.
  destruct (getReviews_issues supplied w) as (k & Hk).
  eexists _, _, k. split; [exact Hk|]. simpl.
  split; [reflexivity|]. split; [|split].
  - rewrite spread_default by (apply wellTyped_no_page_size, Htyped). reflexivity.
  - intros v. apply spread_supplied.
  - intros p. apply spread_supplied.
Qed.

End Listing.

Lemma getReviews_defaults_witness :
  wellTyped ∅
  /\ exists (config : AxiosRequestConfig) (query : gmap string JsPrim) (k : nat),
       snd (getReviews (alwaysOk {| detail := None; payload := "{}" |}) ∅ [])
       = [] ++ retries config 0 k ++ [NetCall config]
       /\ query !! "page" = Some (JsNum 1) /\ query !! "page_size" = Some (JsNum 10).
Proof.
  assert (Htyped : wellTyped ∅) by (unfold wellTyped; set_solver).
  split; [exact Htyped|].
  destruct (getReviews_defaults (alwaysOk {| detail := None; payload := "{}" |}) ∅ [] Htyped)
    as (config & query & k & Hw & _ & _ & _ & Hdefault & _).
  exists config, query, k. split; [exact Hw|].
  apply Hdefault; reflexivity.
Defined.

Lemma getReviews_size_beside_page_size_witness :
  wellTyped {[ "size" := JsNum 20; "page" := JsNum 3 ]}
  /\ exists (config : AxiosRequestConfig) (query : gmap string JsPrim) (k : nat),
       snd (getReviews (alwaysOk {| detail := None; payload := "{}" |})
              {[ "size" := JsNum 20; "page" := JsNum 3 ]} [])
       = [] ++ retries config 0 k ++ [NetCall config]
       /\ query !! "page_size" = Some (JsNum 10)
       /\ query !! "size" = Some (JsNum 20)
       /\ query !! "page" = Some (JsNum 3).
Proof.
  assert (Htyped : wellTyped {[ "size" := JsNum 20; "page" := JsNum 3 ]}).
  { unfold wellTyped, paramKeys. rewrite dom_insert_L, dom_singleton_L.
    intros key Hkey. rewrite elem_of_union, !elem_of_singleton in Hkey.
    rewrite !elem_of_union, !elem_of_singleton. destruct Hkey as [-> | ->]; auto 10. }
  split; [exact Htyped|].
  destruct (getReviews_size_beside_page_size
              (alwaysOk {| detail := None; payload := "{}" |})
              {[ "size" := JsNum 20; "page" := JsNum 3 ]} [] Htyped)
    as (config & query & k & Hw & _ & Hps & Hsize & Hpage).
  exists config, query, k. split; [exact Hw|]. split; [exact Hps|]. split.
  - apply Hsize. reflexivity.
  - apply Hpage. reflexivity.
Defined.

(** *** getReview: the 404 message *)

Section Lookup.

Variable net : World -> AxiosRequestConfig -> AxiosResponse + JsError.

(** A logical call against a service that only ever fails throws one of
    the service's errors. *)
Lemma retryRequest_throws (P : JsError -> Prop) config n w :
  (forall w', exists e, net w' config = inr e /\ P e) ->
  exists e, fst (retryRequest net config n w) = inr (ThrownError e) /\ P e.
Proof.
  intros Hall.
  destruct (retryRequest_shape net config n w) as (k & _ & _ & Hfst).
  destruct (Hall (w ++ retries config n k)) as (e & He & HP).
  exists e. rewrite Hfst, He. split; [reflexivity|exact HP].
Qed.

End Lookup.

(** C6: for every id, when the service answers [getReview(id)] with 404
    the call fails with the message [Review with ID <id> not found],
    which contains "not found" and the id, and which differs from the
    message the call fails with when the service answers 500. *)
Theorem getReview_not_found net404 net500 id w w'
    (H404 : forall h c, exists e,
        net404 h c = inr e /\ responseStatus (ThrownError e) = Some 404)
    (H500 : forall h c, exists e,
        net500 h c = inr e /\ responseStatus (ThrownError e) = Some 500) :
  (forall error h, responseStatus error = Some 404 ->
     getReview_catch id error h =
       (inr (ThrownError (Error ("Review with ID " +:+ pretty id +:+ " not found"))), h))
  /\ fst (getReview net404 id w) =
       inr (ThrownError (Error ("Review with ID " +:+ pretty id +:+ " not found")))
  /\ isSubstring "not found" ("Review with ID " +:+ pretty id +:+ " not found")
  /\ isSubstring (pretty id) ("Review with ID " +:+ pretty id +:+ " not found")
  /\ exists e500,
       fst (getReview net500 id w') =
         inr (ThrownError (Error ("Failed to fetch review: " +:+ message e500)))
       /\ "Failed to fetch review: " +:+ message e500
          <> "Review with ID " +:+ pretty id +:+ " not found".
Proof.
  assert (Hcatch : forall error h, responseStatus error = Some 404 ->
     getReview_catch id error h =
       (inr (ThrownError (Error ("Review with ID " +:+ pretty id +:+ " not found"))), h)).
  { intros error h Hs. unfold getReview_catch, hasResponseKey. rewrite Hs.
    destruct error as [e|]; [|discriminate Hs]. simpl in Hs.
    destruct (response e); try discriminate Hs. reflexivity. }
  split; [exact Hcatch|]. split; [|split; [|split]].
  - unfold getReview. rewrite facade_result.
    destruct (retryRequest_throws net404
                (fun e => responseStatus (ThrownError e) = Some 404)
                {| method := GET; url := "/reviews/" +:+ pretty id;
                   params := None; body := None |} 0 w) as (e & He & Hs).
    { intros h. apply H404. }
    rewrite He, (Hcatch _ _ Hs). reflexivity.
  - exists ("Review with ID " +:+ pretty id +:+ " "), "".
    rewrite !append_assoc. reflexivity.
  - exists "Review with ID ", " not found". reflexivity.
  - destruct (retryRequest_throws net500
                (fun e => responseStatus (ThrownError e) = Some 500)
                {| method := GET; url := "/reviews/" +:+ pretty id;
                   params := None; body := None |} 0 w') as (e & He & Hs).
    { intros h. apply H500. }
    exists e. split.
    + unfold getReview. rewrite facade_result, He.
      unfold getReview_catch. rewrite Hs. simpl. rewrite andb_false_r. reflexivity.
    + intros Heq. discriminate Heq.
Qed.

Lemma getReview_not_found_witness :
  fst (getReview (alwaysFails (httpError 404 (Some "Review not found"))) 42 []) =
    inr (ThrownError (Error "Review with ID 42 not found"))
  /\ exists e500,
       fst (getReview (alwaysFails (httpError 500 None)) 42 []) =
         inr (ThrownError (Error ("Failed to fetch review: " +:+ message e500)))
       /\ "Failed to fetch review: " +:+ message e500 <> "Review with ID 42 not found".
Proof.
  assert (H404 : forall (h : World) (c : AxiosRequestConfig), exists e,
             alwaysFails (httpError 404 (Some "Review not found")) h c = inr e
             /\ responseStatus (ThrownError e) = Some 404).
  { intros h c. eexists. split; reflexivity. }
  assert (H500 : forall (h : World) (c : AxiosRequestConfig), exists e,
             alwaysFails (httpError 500 None) h c = inr e
             /\ responseStatus (ThrownError e) = Some 500).
  { intros h c. eexists. split; reflexivity. }
  destruct (getReview_not_found _ _ 42 [] [] H404 H500) as (_ & Hnf & _ & _ & Hother).
  split; [exact Hnf | exact Hother].
Defined.

(** *** The 503 messages *)

Lemma hasResponseKey_status error s :
  responseStatus error = Some s -> hasResponseKey error = true.
Proof.
  destruct error as [e|]; simpl; [|discriminate].
  destruct (response e); [discriminate|discriminate|reflexivity].
Qed.

Lemma statusIs_other error s :
  responseStatus error <> Some s -> statusIs (responseStatus error) s = false.
Proof.
  unfold statusIs. destruct (responseStatus error) as [x|]; [|reflexivity].
  intros H. destruct (Z.eqb_spec x s); [subst; congruence|reflexivity].
Qed.

(** *** healthCheck *)

(** C8 (as stated) fails: against a service that answers 500, which the
    retry policy retries, [healthCheck] makes its one call and stops,
    while the same request under [retryRequest] is attempted four
    times. *)
Lemma healthCheck_is_not_retried :
  shouldRetry (ThrownError (httpError 500 None)) = true
  /\ snd (healthCheck (alwaysFails (httpError 500 None)) []) = [NetCall healthRequest]
  /\ snd (retryRequest (alwaysFails (httpError 500 None)) healthRequest 0 [])
     = retries healthRequest 0 3 ++ [NetCall healthRequest]
  /\ snd (healthCheck (alwaysFails (httpError 500 None)) [])
     <> snd (retryRequest (alwaysFails (httpError 500 None)) healthRequest 0 []).
Proof.
  split; [reflexivity|]. split; [reflexivity|]. split; [reflexivity|].
  intros H. apply (f_equal countCalls) in H. vm_compute in H. discriminate H.
Qed.

Lemma healthCheck_unfold net w :
  healthCheck net w =
    match net w healthRequest with
    | inl r => (inl (data r), w ++ [NetCall healthRequest])
    | inr e => healthCheck_catch (ThrownError e) (w ++ [NetCall healthRequest])
    end.
Proof.
  unfold healthCheck, try_catch, bind, api, ret. fold healthRequest.
  destruct (net w healthRequest); reflexivity.
Qed.

Lemma healthCheck_catch_throws error w :
  exists msg, healthCheck_catch error w = (inr (ThrownError (Error msg)), w).
Proof. unfold healthCheck_catch. destruct (hasResponseKey error); eexists; reflexivity. Qed.

(** C8 (as amended): [healthCheck] issues exactly one [GET /health]
    through the axios instance and is never retried, whatever the
    failure; a success yields the response body, and every failure
    surfaces as an error whose message is [Health check failed: ]
    followed by the [detail] of the response body when the error carries
    a response with a non-empty [detail], and by the raw error's message
    otherwise. *)
Theorem healthCheck_single_call net w :
  snd (healthCheck net w) = w ++ [NetCall healthRequest]
  /\ match net w healthRequest with
     | inl r => fst (healthCheck net w) = inl (data r)
     | inr e =>
         fst (healthCheck net w) =
           inr (ThrownError (Error ("Health check failed: " +:+
             match response e with
             | Present r =>
                 match detail (data r) with
                 | Some d => if String.eqb d "" then message e else d
                 | None => message e
                 end
             | _ => message e
             end)))
     end.
Proof.
  rewrite healthCheck_unfold.
  destruct (net w healthRequest) as [r|e]; simpl; [split; reflexivity|].
  unfold healthCheck_catch, hasResponseKey, detailOrMessage, messageOrUnknown,
    responseDetail, orElse. simpl.
  destruct (response e) as [| |r]; simpl; [split; reflexivity ..|].
  destruct (detail (data r)) as [d|]; [|split; reflexivity].
  destruct (String.eqb d ""); split; reflexivity.
Qed.

(** ** The health monitor *)

(** C9 (as stated) fails: after a successful poll and a browser
    [offline] event, the browser's [online] event shows Online at once;
    Checking is not re-entered and no poll is made (the history still
    holds the single call of the first poll). *)
Lemma came_back_online_does_not_repoll :
  run (alwaysOk {| detail := None; payload := "{}" |})
      [Poll; BrowserOffline; BrowserOnline] (initialState true) []
  = ([Online; Offline; Online],
     ({| isOnline := true; apiStatus := online |}, [NetCall healthRequest]))
  /\ connectivity
       (fst (step (alwaysOk {| detail := None; payload := "{}" |}) BrowserOnline
               {| isOnline := false; apiStatus := online |} [NetCall healthRequest]))
     <> Checking
  /\ snd (step (alwaysOk {| detail := None; payload := "{}" |}) BrowserOnline
            {| isOnline := false; apiStatus := online |} [NetCall healthRequest])
     = [NetCall healthRequest].
Proof.
  split; [reflexivity|]. split; [|reflexivity].
  simpl. discriminate.
Qed.

Lemma last_cons_default {A : Type} (x : A) (l : list A) (d : A) :
  List.last (x :: l) d = List.last l x.
Proof.
  revert x d. induction l as [|y l IH]; intros x d; [reflexivity|].
  change (List.last (y :: l) d = List.last (y :: l) x).
  rewrite (IH y d), (IH y x). reflexivity.
Qed.

(** Browser events alone change nothing but the browser flag. *)
Lemma run_browserSignals net flags : forall st w,
  run net (browserSignals flags) st w =
    (map (fun flag => connectivity {| isOnline := flag; apiStatus := apiStatus st |}) flags,
     ({| isOnline := List.last flags (isOnline st); apiStatus := apiStatus st |}, w)).
Proof.
  induction flags as [|flag rest IH]; intros st w.
  - destruct st. reflexivity.
  - rewrite last_cons_default. unfold browserSignals in *.
    destruct flag; simpl; rewrite IH; reflexivity.
Qed.

(** C9 (as amended): [apiStatus] starts at [checking], and Checking is
    shown at mount when the browser reports being online; a poll makes
    exactly one health call, a successful one sets [apiStatus] to
    [online] (Online is shown while the browser is online) and a failed
    one sets it to [offline] (Offline is shown), and neither touches the
    browser flag; the browser's [offline] event shows Offline at once
    without a network call and leaves [apiStatus] alone; the browser's
    [online] event only restores the browser flag: it makes no network
    call and leaves [apiStatus] as the last poll set it, so what is shown
    is Online, Offline or Checking according to that value.  Through any
    sequence of browser events the history and [apiStatus] stay as they
    were, and after a poll, an [offline] and an [online] event the
    statuses shown are those of the poll, Offline, and those of the poll
    again, with the poll's call as the only network call. *)
Theorem monitor_transitions net st w navigatorOnLine :
  apiStatus (initialState navigatorOnLine) = checking
  /\ connectivity (initialState true) = Checking
  /\ snd (step net Poll st w) = w ++ [NetCall healthRequest]
  /\ match net w healthRequest with
     | inl _ =>
         apiStatus (fst (step net Poll st w)) = online
         /\ connectivity (fst (step net Poll st w))
            = (if isOnline st then Online else Offline)
     | inr _ =>
         apiStatus (fst (step net Poll st w)) = offline
         /\ connectivity (fst (step net Poll st w)) = Offline
     end
  /\ step net BrowserOffline st w = (handleOffline st, w)
  /\ connectivity (handleOffline st) = Offline
  /\ step net BrowserOnline st w = (handleOnline st, w)
  /\ apiStatus (handleOnline st) = apiStatus st
  /\ connectivity (handleOnline st)
     = match apiStatus st with
       | checking => Checking
       | online => Online
       | offline => Offline
       end
  /\ isOnline (fst (step net Poll st w)) = isOnline st
  /\ apiStatus (handleOffline st) = apiStatus st
  /\ isOnline (handleOffline st) = false
  /\ isOnline (handleOnline st) = true
  /\ (forall flags,
        run net (browserSignals flags) st w =
          (map (fun flag => connectivity {| isOnline := flag; apiStatus := apiStatus st |})
             flags,
           ({| isOnline := List.last flags (isOnline st); apiStatus := apiStatus st |}, w)))
  /\ run net [Poll; BrowserOffline; BrowserOnline] st w =
       match net w healthRequest with
       | inl _ =>
           ([if isOnline st then Online else Offline; Offline; Online],
            ({| isOnline := true; apiStatus := online |}, w ++ [NetCall healthRequest]))
       | inr _ =>
           ([Offline; Offline; Offline],
            ({| isOnline := true; apiStatus := offline |}, w ++ [NetCall healthRequest]))
       end.
Proof.
  assert (Hpoll : step net Poll st w =
            match net w healthRequest with
            | inl _ => ({| isOnline := isOnline st; apiStatus := online |},
                        w ++ [NetCall healthRequest])
            | inr _ => ({| isOnline := isOnline st; apiStatus := offline |},
                        w ++ [NetCall healthRequest])
            end).
  { simpl. unfold checkApiHealth. rewrite healthCheck_unfold.
    destruct (net w healthRequest) as [r|e]; [reflexivity|].
    destruct (healthCheck_catch_throws (ThrownError e) (w ++ [NetCall healthRequest]))
      as (msg & ->). reflexivity. }
  split; [reflexivity|]. split; [reflexivity|].
  split; [rewrite Hpoll; destruct (net w healthRequest); reflexivity|].
  split.
  { rewrite Hpoll. destruct (net w healthRequest) as [r|e]; simpl;
      (split; [reflexivity|]); destruct (isOnline st); reflexivity. }
  split; [reflexivity|].
  split; [destruct st as [[] []]; reflexivity|].
  split; [reflexivity|]. split; [reflexivity|].
  split; [destruct st as [[] []]; reflexivity|].
  split; [rewrite Hpoll; destruct (net w healthRequest); reflexivity|].
  split; [reflexivity|]. split; [reflexivity|]. split; [reflexivity|].
  split; [intros flags; apply run_browserSignals|].
  change (run net [Poll; BrowserOffline; BrowserOnline] st w)
    with (let '(st1, w1) := step net Poll st w in
          let '(shown, final) := run net [BrowserOffline; BrowserOnline] st1 w1 in
          (connectivity st1 :: shown, final)).
  rewrite Hpoll.
  destruct (net w healthRequest) as [r|e]; destruct (isOnline st); reflexivity.
Qed.

(** ** Sample runs *)

(** A 503 answer is retried three times before the facade reports the
    feature as unavailable. *)
Example getAnalytics_503 :
  getAnalytics (alwaysFails (httpError 503 None)) []
  = (inr (ThrownError (Error "Analytics are currently unavailable")),
     retries analyticsRequest 0 3 ++ [NetCall analyticsRequest]).
Proof. reflexivity. Qed.

Example getAnalytics_waits :
  waits (snd (getAnalytics (alwaysFails timeoutError) [])) = [1000; 2000; 3000].
Proof. reflexivity. Qed.

Example getReview_401 :
  getReview (alwaysFails (httpError 401 (Some "Invalid API key"))) 5 []
  = (inr (ThrownError
            (Error "Failed to fetch review: Request failed with status code 401")),
     [NetCall {| method := GET; url := "/reviews/5"; params := None; body := None |}]).
Proof. reflexivity. Qed.

Example healthCheck_detail :
  fst (healthCheck (alwaysFails (httpError 503 (Some "Database unavailable"))) [])
  = inr (ThrownError (Error "Health check failed: Database unavailable")).
Proof. reflexivity. Qed.

Example trim_inner : trim "  slow service	 " = "slow service".
Proof. reflexivity. Qed.

Example monitor_failing_poll :
  run (alwaysFails timeoutError) [Poll] (initialState true) []
  = ([Offline], ({| isOnline := true; apiStatus := offline |}, [NetCall healthRequest])).
Proof. reflexivity. Qed.

(** ** More on the retry engine *)

Lemma totalWait_app w1 w2 : totalWait (w1 ++ w2) = totalWait w1 + totalWait w2.
Proof. induction w1 as [|[c|ms] w1 IH]; simpl; lia. Qed.

Lemma requests_app w1 w2 : requests (w1 ++ w2) = requests w1 ++ requests w2.
Proof. induction w1 as [|[c|ms] w1 IH]; simpl; congruence. Qed.

Lemma requests_retries config n k : requests (retries config n k) = repeat config k.
Proof. revert n. induction k as [|k IH]; intros n; simpl; [|rewrite IH]; reflexivity. Qed.

Lemma shouldRetry_retryable e : shouldRetry (ThrownError e) = true <-> retryable e.
Proof.
  unfold shouldRetry, retryable, statusIs. simpl. split.
  - intros H. destruct (code e) as [c|] eqn:Hc.
    + destruct (String.eqb_spec c "ECONNABORTED") as [->|Hne]; [left; reflexivity|].
      right. destruct (response e) as [| |r]; simpl in H; try discriminate H.
      exists r. split; [reflexivity|]. crush_status.
    + right. destruct (response e) as [| |r]; simpl in H; try discriminate H.
      exists r. split; [reflexivity|]. crush_status.
  - intros [Hc|(r & Hr & Hs)].
    + rewrite Hc. reflexivity.
    + rewrite Hr. apply orb_true_iff. destruct Hs as [Hs|Hs].
      * left. apply orb_true_iff. right. crush_status.
      * right. crush_status.
Qed.

Section EngineRuns.

Variable net : World -> AxiosRequestConfig -> AxiosResponse + JsError.

(** The run of one logical call, attempt by attempt. *)
Lemma retryRequest_run config n w :
  exists k : nat,
    Z.of_nat k <= Z.max 0 (MAX_RETRIES - n)
    /\ retryRequest net config n w =
         (outcome (net (w ++ retries config n k) config),
          w ++ retries config n k ++ [NetCall config])
    /\ (forall i, (i < k)%nat -> exists e,
          net (w ++ retries config n i) config = inr e
          /\ shouldRetry (ThrownError e) = true)
    /\ (forall e, net (w ++ retries config n k) config = inr e ->
          shouldRetry (ThrownError e) = false \/ MAX_RETRIES <= n + Z.of_nat k).
Proof.
  remember (Z.to_nat (MAX_RETRIES - n)) as m eqn:Hm.
  revert n w Hm. induction m as [|m IH]; intros n w Hm.
  - exists O. simpl. rewrite app_nil_r. split; [lia|].
    destruct (net w config) as [r|e] eqn:Hnet.
    + rewrite (retryRequest_success net _ _ _ _ Hnet).
      split; [reflexivity|]. split; [intros i Hi; lia|]. intros e He. discriminate He.
    + rewrite (retryRequest_stop net _ _ _ _ Hnet) by (left; lia).
      split; [reflexivity|]. split; [intros i Hi; lia|]. intros e' _. right. lia.
  - destruct (net w config) as [r|e] eqn:Hnet.
    + exists O. simpl. rewrite app_nil_r, Hnet.
      rewrite (retryRequest_success net _ _ _ _ Hnet).
      split; [lia|]. split; [reflexivity|]. split; [intros i Hi; lia|].
      intros e He. discriminate He.
    + destruct (shouldRetry (ThrownError e)) eqn:Hs.
      * assert (Hlt : n < MAX_RETRIES) by lia.
        rewrite (retryRequest_again net _ _ _ _ Hnet Hlt Hs).
        destruct (IH (n + 1) ((w ++ [NetCall config]) ++ [Wait (1000 * (n + 1))]))
          as (k & Hk & Hrun & Hbefore & Hlast); [lia|].
        assert (Hshift : forall i,
                   ((w ++ [NetCall config]) ++ [Wait (1000 * (n + 1))])
                     ++ retries config (n + 1) i
                   = w ++ retries config n (S i)).
        { intros i. simpl. rewrite <- !app_assoc. reflexivity. }
        exists (S k). rewrite Hrun, !Hshift. split; [lia|].
        split; [rewrite <- ?app_assoc; simpl; rewrite <- ?app_assoc; reflexivity|].
        split.
        -- intros [|i] Hi.
           ++ exists e. simpl. rewrite app_nil_r. auto.
           ++ rewrite <- Hshift. apply Hbefore. lia.
        -- intros e' He'. rewrite <- Hshift in He'.
           destruct (Hlast e' He') as [Hno|Hmax]; [left; exact Hno|right; lia].
      * exists O. simpl. rewrite app_nil_r, Hnet.
        rewrite (retryRequest_stop net _ _ _ _ Hnet) by (right; exact Hs).
        split; [lia|]. split; [reflexivity|]. split; [intros i Hi; lia|].
        intros e' He'. injection He' as <-. left. exact Hs.
Qed.

(** X1: a logical call re-issues the same request at every attempt;
    every attempt but the last failed with an error [shouldRetry]
    accepts; the result is the answer to the last attempt; and when that
    answer is an error, either [shouldRetry] rejects it or the three
    retries are used up. *)
Theorem retry_engine_sound config w :
  exists k : nat,
    (k <= 3)%nat
    /\ retryRequest net config 0 w =
         (outcome (net (w ++ retries config 0 k) config),
          w ++ retries config 0 k ++ [NetCall config])
    /\ requests (retries config 0 k ++ [NetCall config]) = repeat config (S k)
    /\ (forall i, (i < k)%nat -> exists e,
          net (w ++ retries config 0 i) config = inr e
          /\ shouldRetry (ThrownError e) = true)
    /\ (forall e, net (w ++ retries config 0 k) config = inr e ->
          shouldRetry (ThrownError e) = false \/ k = 3%nat).
Proof.
  destruct (retryRequest_run config 0 w) as (k & Hk & Hrun & Hbefore & Hlast).
  unfold MAX_RETRIES in *. exists k. split; [lia|]. split; [exact Hrun|].
  split; [|split].
  - rewrite requests_app, requests_retries. simpl.
    clear. induction k as [|k IH]; simpl; [reflexivity|]. f_equal. exact IH.
  - exact Hbefore.
  - intros e He. destruct (Hlast e He) as [Hno|Hmax]; [left; exact Hno|right; lia].
Qed.

(** X2: the backoff waits of one logical call add up to
    [500 * k * (k + 1)] ms for [k] retries, at most 6000 ms. *)
Theorem backoff_total_bounded config w :
  exists k : nat,
    (k <= 3)%nat
    /\ snd (retryRequest net config 0 w) = w ++ retries config 0 k ++ [NetCall config]
    /\ totalWait (snd (retryRequest net config 0 w))
       = totalWait w + 500 * Z.of_nat k * (Z.of_nat k + 1)
    /\ totalWait (snd (retryRequest net config 0 w)) <= totalWait w + 6000.
Proof.
  destruct (retryRequest_run config 0 w) as (k & Hk & Hrun & _).
  unfold MAX_RETRIES in Hk. exists k. rewrite Hrun. simpl.
  split; [lia|]. split; [reflexivity|].
  rewrite !totalWait_app. simpl.
  destruct k as [|[|[|[|k]]]]; simpl; try lia.
Qed.

Lemma retryRequest_recovers config j :
  forall n w r,
    n + Z.of_nat j <= MAX_RETRIES ->
    (forall i, (i < j)%nat -> exists e,
        net (w ++ retries config n i) config = inr e
        /\ shouldRetry (ThrownError e) = true) ->
    net (w ++ retries config n j) config = inl r ->
    retryRequest net config n w = (inl r, w ++ retries config n j ++ [NetCall config]).
Proof.
  induction j as [|j IH]; intros n w r Hn Hfail Hok.
  - simpl in *. rewrite app_nil_r in Hok. apply retryRequest_success, Hok.
  - destruct (Hfail O) as (e & He & Hs); [lia|].
    simpl in He. rewrite app_nil_r in He.
    rewrite (retryRequest_again net _ _ _ _ He) by (auto; lia).
    rewrite (IH (n + 1) _ r).
    + simpl. rewrite <- !app_assoc. reflexivity.
    + lia.
    + intros i Hi. destruct (Hfail (S i)) as (e' & He' & Hs'); [lia|].
      exists e'. split; [|exact Hs'].
      rewrite <- He'. simpl. rewrite <- !app_assoc. reflexivity.
    + rewrite <- Hok. simpl. rewrite <- !app_assoc. reflexivity.
Qed.

(** X3: up to three failures that [shouldRetry] accepts are hidden from
    the caller: when the attempt after them is answered, the logical call
    resolves with that response. *)
Theorem retry_masks_transient_failures config w j r
    (Hj : (j <= 3)%nat)
    (Hfail : forall i, (i < j)%nat -> exists e,
        net (w ++ retries config 0 i) config = inr e
        /\ shouldRetry (ThrownError e) = true)
    (Hok : net (w ++ retries config 0 j) config = inl r) :
  retryRequest net config 0 w = (inl r, w ++ retries config 0 j ++ [NetCall config])
  /\ countCalls (snd (retryRequest net config 0 w)) = (countCalls w + j + 1)%nat.
Proof.
  assert (Hrun : retryRequest net config 0 w
                 = (inl r, w ++ retries config 0 j ++ [NetCall config])).
  { apply retryRequest_recovers; [unfold MAX_RETRIES; lia|exact Hfail|exact Hok]. }
  split; [exact Hrun|]. rewrite Hrun. simpl.
  rewrite !countCalls_app, countCalls_retries. simpl. lia.
Qed.

(** X4: a failed attempt is retried exactly when the attempt counter is
    below 3 and the error carries the timeout code or a response with
    status 429 or at least 500; in every other case (a connection error
    without a response, any other status, a used-up budget) the error is
    thrown after that one call. *)
Theorem retry_decision_exact config n w e (Hfail : net w config = inr e) :
  (n < MAX_RETRIES /\ retryable e -> retried net config n w)
  /\ (MAX_RETRIES <= n \/ ~ retryable e -> surfaced net config n w e).
Proof.
  split.
  - intros [Hn Hr]. apply (retried_intro net _ _ _ e); auto.
    apply shouldRetry_retryable, Hr.
  - intros H. apply retryRequest_stop; [exact Hfail|].
    destruct H as [Hn|Hno]; [left; exact Hn|right].
    destruct (shouldRetry (ThrownError e)) eqn:Hs; [|reflexivity].
    exfalso. apply Hno, shouldRetry_retryable, Hs.
Qed.

End EngineRuns.

Lemma retry_masks_transient_failures_witness :
  retryRequest (recoversAfter 2 timeoutError {| status := 200; data := mkData None "[]" |})
    analyticsRequest 0 []
  = (inl {| status := 200; data := mkData None "[]" |},
     [] ++ retries analyticsRequest 0 2 ++ [NetCall analyticsRequest]).
Proof.
  apply (proj1 (retry_masks_transient_failures
                  (recoversAfter 2 timeoutError {| status := 200; data := mkData None "[]" |})
                  analyticsRequest [] 2 {| status := 200; data := mkData None "[]" |}
                  ltac:(lia)
                  ltac:(intros [|[|i]] Hi; [exists timeoutError; split; reflexivity ..|lia])
                  eq_refl)).
Defined.

Lemma retry_decision_exact_witness :
  retried (alwaysFails (httpError 502 None)) analyticsRequest 1 []
  /\ surfaced (alwaysFails (httpError 404 None)) analyticsRequest 0 [] (httpError 404 None).
Proof.
  split.
  - apply (proj1 (retry_decision_exact (alwaysFails (httpError 502 None))
                    analyticsRequest 1 [] (httpError 502 None) eq_refl)).
    split; [unfold MAX_RETRIES; lia|].
    right. eexists. split; [reflexivity|]. left. simpl. lia.
  - apply (proj2 (retry_decision_exact (alwaysFails (httpError 404 None))
                    analyticsRequest 0 [] (httpError 404 None) eq_refl)).
    right. intros [Hc|(r & Hr & Hs)].
    + discriminate Hc.
    + injection Hr as <-. simpl in Hs. lia.
Defined.

(** ** More on the facade *)

Lemma getReviews_catch_plain error w :
  exists msg, getReviews_catch error w = (inr (ThrownError (Error msg)), w).
Proof. eexists. reflexivity. Qed.

Lemma getReview_catch_plain id error w :
  exists msg, getReview_catch id error w = (inr (ThrownError (Error msg)), w).
Proof.
  unfold getReview_catch.
  destruct (hasResponseKey error && statusIs (responseStatus error) 404);
    eexists; reflexivity.
Qed.

Lemma ingestReviews_catch_plain error w :
  exists msg, ingestReviews_catch error w = (inr (ThrownError (Error msg)), w).
Proof. eexists. reflexivity. Qed.

Lemma suggestReply_catch_plain id error w :
  exists msg, suggestReply_catch id error w = (inr (ThrownError (Error msg)), w).
Proof.
  unfold suggestReply_catch.
  destruct (hasResponseKey error && statusIs (responseStatus error) 404);
    [eexists; reflexivity|].
  destruct (hasResponseKey error && statusIs (responseStatus error) 503);
    eexists; reflexivity.
Qed.

Lemma getAnalytics_catch_plain error w :
  exists msg, getAnalytics_catch error w = (inr (ThrownError (Error msg)), w).
Proof.
  unfold getAnalytics_catch.
  destruct (hasResponseKey error); [|eexists; reflexivity].
  destruct (statusIs (responseStatus error) 503); eexists; reflexivity.
Qed.

Lemma searchSimilar_catch_plain error w :
  exists msg, searchSimilar_catch error w = (inr (ThrownError (Error msg)), w).
Proof.
  unfold searchSimilar_catch.
  destruct (hasResponseKey error); [|eexists; reflexivity].
  destruct (statusIs (responseStatus error) 503); eexists; reflexivity.
Qed.

Lemma processReviews_catch_plain error w :
  exists msg, processReviews_catch error w = (inr (ThrownError (Error msg)), w).
Proof.
  unfold processReviews_catch.
  destruct (hasResponseKey error); [|eexists; reflexivity].
  destruct (statusIs (responseStatus error) 503); eexists; reflexivity.
Qed.

(** An operation whose handler throws plain errors fails plainly and
    adds nothing to the history of its logical call. *)
Lemma try_catch_plain {A : Type} (m : Async A) (handler : Thrown -> Async A) w :
  (forall error w', exists msg, handler error w' = (inr (ThrownError (Error msg)), w')) ->
  failsPlainly (fst (try_catch m handler w))
  /\ snd (try_catch m handler w) = snd (m w).
Proof.
  intros Hh. unfold try_catch.
  destruct (m w) as [[a|error] w1]; simpl; [split; [exact I|reflexivity]|].
  destruct (Hh error w1) as (msg & ->). simpl. split; [exists msg|]; reflexivity.
Qed.

Section FacadeFailures.

Variable net : World -> AxiosRequestConfig -> AxiosResponse + JsError.

(** X5: whatever the service does, each of the eight operations either
    resolves or throws a plain [Error] that carries only a message: the
    response and its status are gone, so [isApiError] is false for every
    error the facade throws, [getErrorStatus] gives [undefined] and
    [getErrorMessage] gives its fallback text. *)
Theorem facade_failures_are_plain (supplied : gmap string JsPrim) id reviews query k w :
  failsPlainly (fst (getReviews net supplied w))
  /\ failsPlainly (fst (getReview net id w))
  /\ failsPlainly (fst (ingestReviews net reviews w))
  /\ failsPlainly (fst (suggestReply net id w))
  /\ failsPlainly (fst (getAnalytics net w))
  /\ failsPlainly (fst (searchSimilar net query k w))
  /\ failsPlainly (fst (processReviews net w))
  /\ failsPlainly (fst (healthCheck net w))
  /\ forall msg,
       isApiError (ThrownError (Error msg)) = false
       /\ getErrorStatus (ThrownError (Error msg)) = None
       /\ getErrorMessage (ThrownError (Error msg)) = "An unexpected error occurred".
Proof.
  repeat split.
  - apply try_catch_plain, getReviews_catch_plain.
  - apply try_catch_plain, getReview_catch_plain.
  - apply try_catch_plain, ingestReviews_catch_plain.
  - apply try_catch_plain, suggestReply_catch_plain.
  - apply try_catch_plain, getAnalytics_catch_plain.
  - apply try_catch_plain, searchSimilar_catch_plain.
  - apply try_catch_plain, processReviews_catch_plain.
  - apply try_catch_plain, healthCheck_catch_throws.
Qed.

End FacadeFailures.

Lemma orElse_nonempty a b : b <> "" -> orElse a b <> "".
Proof.
  intros Hb. unfold orElse. destruct a as [s|]; [|exact Hb].
  destruct (String.eqb_spec s ""); assumption.
Qed.

(** X6: on a caught axios error, [getErrorStatus] yields the status of
    the response exactly when there is one and it is at least 400, and
    [undefined] otherwise (a timeout or a connection error has none);
    [getErrorMessage] never yields the empty string. *)
Theorem error_utilities error :
  match responseStatus error with
  | Some s =>
      getErrorStatus error = (if 400 <=? s then Some s else None)
      /\ isApiError error = (400 <=? s)
  | None =>
      getErrorStatus error = None
      /\ isApiError error = false
      /\ getErrorMessage error = "An unexpected error occurred"
  end
  /\ getErrorMessage error <> "".
Proof.
  split.
  - destruct (responseStatus error) as [s|] eqn:Hs.
    + unfold getErrorStatus, isApiError.
      rewrite (hasResponseKey_status _ _ Hs), Hs. simpl.
      destruct (400 <=? s); split; reflexivity.
    + unfold getErrorStatus, getErrorMessage, isApiError. rewrite Hs.
      rewrite andb_false_r. repeat split.
  - unfold getErrorMessage. destruct (isApiError error); [|discriminate].
    apply orElse_nonempty. discriminate.
Qed.

(** *** White space and [trim] *)

Lemma trimStart_not_blank s :
  whitespaceOnly s = false ->
  exists c s', trimStart s = String c s' /\ isWhiteSpace c = false.
Proof.
  induction s as [|c s IH]; simpl; [discriminate|].
  destruct (isWhiteSpace c) eqn:Hc; simpl.
  - exact IH.
  - intros _. exists c, s. auto.
Qed.

Lemma trimEnd_keeps_head c s :
  isWhiteSpace c = false -> exists t, trimEnd (String c s) = String c t.
Proof.
  intros Hc. simpl. destruct (trimEnd s) as [|c' t].
  - rewrite Hc. exists "". reflexivity.
  - exists (String c' t). reflexivity.
Qed.

Lemma trimEnd_idempotent s : trimEnd (trimEnd s) = trimEnd s.
Proof.
  induction s as [|c s IH]; [reflexivity|]. simpl.
  destruct (trimEnd s) as [|c' t] eqn:Ht.
  - destruct (isWhiteSpace c) eqn:Hc; [reflexivity|]. simpl. rewrite Hc. reflexivity.
  - change (trimEnd (String c (String c' t)) = String c (String c' t)).
    change (trimEnd (String c (String c' t)))
      with (match trimEnd (String c' t) with
            | EmptyString => if isWhiteSpace c then EmptyString else String c EmptyString
            | t' => String c t'
            end).
    rewrite IH. reflexivity.
Qed.

Lemma trim_not_blank s :
  whitespaceOnly s = false ->
  exists c t, trim s = String c t /\ isWhiteSpace c = false.
Proof.
  intros H. destruct (trimStart_not_blank s H) as (c & s' & Hs & Hc).
  unfold trim. rewrite Hs. destruct (trimEnd_keeps_head c s' Hc) as (t & Ht).
  exists c, t. auto.
Qed.

Lemma trim_idempotent s : trim (trim s) = trim s.
Proof.
  destruct (whitespaceOnly s) eqn:Hs.
  - rewrite (trim_whitespaceOnly s Hs). reflexivity.
  - destruct (trim_not_blank s Hs) as (c & t & Ht & Hc).
    unfold trim at 1. rewrite Ht. simpl trimStart. rewrite Hc.
    rewrite <- Ht. unfold trim. apply trimEnd_idempotent.
Qed.

Lemma not_blank_nonempty s : whitespaceOnly s = false -> String.eqb s "" = false.
Proof. destruct s; [discriminate|reflexivity]. Qed.

Section FacadeRequests.

Variable net : World -> AxiosRequestConfig -> AxiosResponse + JsError.

(** X7: the request each operation builds.  When the service answers the
    first attempt, every operation resolves with the body of that answer
    after exactly one call and no wait; the call is the operation's
    method and path, with the reviews as body for [ingestReviews] and the
    trimmed query and [k] as parameters for [searchSimilar]. *)
Theorem first_answer_is_returned (supplied : gmap string JsPrim) id review rest query k w r
    (Hquery : whitespaceOnly query = false)
    (Hok : forall config, net w config = inl r) :
  getReviews net supplied w =
    (inl (data r),
     w ++ [NetCall {| method := GET; url := "/reviews";
                      params := Some (spread {[ "page" := JsNum 1; "page_size" := JsNum 10 ]}
                                        supplied);
                      body := None |}])
  /\ getReview net id w =
       (inl (data r),
        w ++ [NetCall {| method := GET; url := "/reviews/" +:+ pretty id;
                         params := None; body := None |}])
  /\ ingestReviews net (ArrayOf (review :: rest)) w =
       (inl (data r),
        w ++ [NetCall {| method := POST; url := "/ingest";
                         params := None; body := Some (review :: rest) |}])
  /\ suggestReply net id w =
       (inl (data r),
        w ++ [NetCall {| method := POST;
                         url := "/reviews/" +:+ pretty id +:+ "/suggest-reply";
                         params := None; body := None |}])
  /\ getAnalytics net w =
       (inl (data r),
        w ++ [NetCall {| method := GET; url := "/analytics";
                         params := None; body := None |}])
  /\ searchSimilar net query k w =
       (inl (data r),
        w ++ [NetCall {| method := GET; url := "/search";
                         params := Some {[ "q" := JsStr (trim query); "k" := JsNum k ]};
                         body := None |}])
  /\ processReviews net w =
       (inl (data r),
        w ++ [NetCall {| method := POST; url := "/process-reviews";
                         params := None; body := None |}])
  /\ healthCheck net w =
       (inl (data r),
        w ++ [NetCall {| method := GET; url := "/health"; params := None; body := None |}]).
Proof.
  assert (Hcall : forall config handler,
             try_catch (await response <- retryRequest net config 0; ret (data response))
               handler w
             = (inl (data r), w ++ [NetCall config])).
  { intros config handler. unfold try_catch, bind, ret.
    rewrite (retryRequest_success net _ _ _ _ (Hok config)). reflexivity. }
  split; [apply Hcall|]. split; [apply Hcall|].
  split; [unfold ingestReviews; simpl; apply Hcall|].
  split; [apply Hcall|]. split; [apply Hcall|].
  split; [|split; [apply Hcall|]].
  - unfold searchSimilar.
    destruct (trim_not_blank query Hquery) as (c & t & Ht & _).
    rewrite (not_blank_nonempty query Hquery), Ht. simpl. rewrite <- Ht. apply Hcall.
  - rewrite healthCheck_unfold. fold healthRequest. rewrite (Hok healthRequest). reflexivity.
Qed.

(** X8: [searchSimilar] reaches the network exactly when the query has a
    character that is not white space.  A blank query changes nothing in
    the history; any other query is sent as [GET /search] with [q] the
    trimmed query, which is not empty, starts with a character that is
    not white space and is left unchanged by trimming again. *)
Theorem searchSimilar_reaches_network query k w :
  if whitespaceOnly query then snd (searchSimilar net query k w) = w
  else
    (exists n : nat,
        snd (searchSimilar net query k w) =
          w ++ retries {| method := GET; url := "/search";
                          params := Some {[ "q" := JsStr (trim query); "k" := JsNum k ]};
                          body := None |} 0 n
            ++ [NetCall {| method := GET; url := "/search";
                           params := Some {[ "q" := JsStr (trim query); "k" := JsNum k ]};
                           body := None |}])
    /\ snd (searchSimilar net query k w) <> w
    /\ (exists c t, trim query = String c t /\ isWhiteSpace c = false)
    /\ trim (trim query) = trim query.
Proof.
  destruct (whitespaceOnly query) eqn:Hq.
  - pose proof (trim_whitespaceOnly query Hq) as Ht.
    unfold searchSimilar, try_catch. rewrite Ht. simpl. rewrite orb_true_r. reflexivity.
  - destruct (trim_not_blank query Hq) as (c & t & Ht & Hc).
    assert (Hw : exists n : nat,
        snd (searchSimilar net query k w) =
          w ++ retries {| method := GET; url := "/search";
                          params := Some {[ "q" := JsStr (trim query); "k" := JsNum k ]};
                          body := None |} 0 n
            ++ [NetCall {| method := GET; url := "/search";
                           params := Some {[ "q" := JsStr (trim query); "k" := JsNum k ]};
                           body := None |}]).
    { unfold searchSimilar.
      rewrite (not_blank_nonempty query Hq), Ht. simpl. rewrite <- Ht.
      destruct (try_catch_plain
                  (await response <-
                     retryRequest net
                       {| method := GET; url := "/search";
                          params := Some {[ "q" := JsStr (trim query); "k" := JsNum k ]};
                          body := None |} 0;
                   ret (data response))
                  searchSimilar_catch w searchSimilar_catch_plain) as [_ Hsnd].
      rewrite Hsnd. unfold bind, ret.
      destruct (retryRequest_shape net
                  {| method := GET; url := "/search";
                     params := Some {[ "q" := JsStr (trim query); "k" := JsNum k ]};
                     body := None |} 0 w) as (n & _ & Hs & _).
      exists n. rewrite <- Hs.
      destruct (retryRequest net _ 0 w) as [[x|x] w1]; reflexivity. }
    split; [exact Hw|]. split; [|split].
    + destruct Hw as (n & ->). intros Heq.
      apply (f_equal (@length _)) in Heq. rewrite !length_app in Heq. simpl in Heq. lia.
    + exists c, t. auto.
    + apply trim_idempotent.
Qed.

End FacadeRequests.

Lemma first_answer_is_returned_witness :
  searchSimilar (alwaysOk (mkData None "[]")) "  slow service " 5 [] =
    (inl (mkData None "[]"),
     [] ++ [NetCall {| method := GET; url := "/search";
                       params := Some {[ "q" := JsStr (trim "  slow service ");
                                         "k" := JsNum 5 ]};
                       body := None |}]).
Proof.
  exact (proj1 (proj2 (proj2 (proj2 (proj2 (proj2
    (first_answer_is_returned (alwaysOk (mkData None "[]")) ∅ 1
       (mkReview 1 "NYC" 5 "Great!" "2025-01-15" None None) []
       "  slow service " 5 [] {| status := 200; data := mkData None "[]" |}
       eq_refl (fun _ => eq_refl)))))))).
Defined.

(** ** The failure messages of the operations *)

Lemma statusIs_true x v : statusIs x v = true -> x = Some v.
Proof.
  unfold statusIs. destruct x as [s|]; [|discriminate].
  intros H. apply Z.eqb_eq in H. congruence.
Qed.

Lemma searchSimilar_unfold net query k w :
  whitespaceOnly query = false ->
  searchSimilar net query k w =
    try_catch
      (await response <- retryRequest net (searchRequest query k) 0; ret (data response))
      searchSimilar_catch w.
Proof.
  intros Hq. destruct (trim_not_blank query Hq) as (c & t & Ht & _).
  assert (Hlen : (String.length (trim query) =? 0)%nat = false)
    by (rewrite Ht; reflexivity).
  unfold searchSimilar, try_catch, searchRequest.
  rewrite (not_blank_nonempty query Hq), Hlen. reflexivity.
Qed.

Lemma ingestReviews_unfold net review rest w :
  ingestReviews net (ArrayOf (review :: rest)) w =
    try_catch
      (await response <- retryRequest net (ingestRequest (review :: rest)) 0;
       ret (data response))
      ingestReviews_catch w.
Proof. reflexivity. Qed.

(** What an operation that wraps one logical call does with the outcome
    of that call. *)
Lemma facade_outcome net config handler w :
  try_catch (await response <- retryRequest net config 0; ret (data response)) handler w
  = match retryRequest net config 0 w with
    | (inl r, w1) => (inl (data r), w1)
    | (inr error, w1) => handler error w1
    end.
Proof.
  unfold try_catch, bind, ret.
  destruct (retryRequest net config 0 w) as [[r|error] w1]; reflexivity.
Qed.

Lemma suggestReply_catch_503 id error w :
  if statusIs (responseStatus error) 503
  then suggestReply_catch id error w =
         (inr (ThrownError (Error "AI reply generation is currently unavailable")), w)
  else fst (suggestReply_catch id error w) <>
         inr (ThrownError (Error "AI reply generation is currently unavailable")).
Proof.
  destruct (statusIs (responseStatus error) 503) eqn:H503.
  - apply statusIs_true in H503. unfold suggestReply_catch.
    rewrite (hasResponseKey_status _ _ H503), H503. reflexivity.
  - unfold suggestReply_catch. rewrite H503, andb_false_r.
    destruct (hasResponseKey error && statusIs (responseStatus error) 404);
      simpl; intros Heq; discriminate Heq.
Qed.

Lemma getAnalytics_catch_503 error w :
  if statusIs (responseStatus error) 503
  then getAnalytics_catch error w =
         (inr (ThrownError (Error "Analytics are currently unavailable")), w)
  else fst (getAnalytics_catch error w) <>
         inr (ThrownError (Error "Analytics are currently unavailable")).
Proof.
  destruct (statusIs (responseStatus error) 503) eqn:H503.
  - apply statusIs_true in H503. unfold getAnalytics_catch.
    rewrite (hasResponseKey_status _ _ H503), H503. reflexivity.
  - unfold getAnalytics_catch. rewrite H503.
    destruct (hasResponseKey error); simpl; intros Heq; discriminate Heq.
Qed.

Lemma searchSimilar_catch_503 error w :
  if statusIs (responseStatus error) 503
  then searchSimilar_catch error w =
         (inr (ThrownError (Error "Search functionality is currently unavailable")), w)
  else fst (searchSimilar_catch error w) <>
         inr (ThrownError (Error "Search functionality is currently unavailable")).
Proof.
  destruct (statusIs (responseStatus error) 503) eqn:H503.
  - apply statusIs_true in H503. unfold searchSimilar_catch.
    rewrite (hasResponseKey_status _ _ H503), H503. reflexivity.
  - unfold searchSimilar_catch. rewrite H503.
    destruct (hasResponseKey error); simpl; intros Heq; discriminate Heq.
Qed.

Lemma processReviews_catch_503 error w :
  if statusIs (responseStatus error) 503
  then processReviews_catch error w =
         (inr (ThrownError (Error "Batch processing is currently unavailable")), w)
  else fst (processReviews_catch error w) <>
         inr (ThrownError (Error "Batch processing is currently unavailable")).
Proof.
  destruct (statusIs (responseStatus error) 503) eqn:H503.
  - apply statusIs_true in H503. unfold processReviews_catch.
    rewrite (hasResponseKey_status _ _ H503), H503. reflexivity.
  - unfold processReviews_catch. rewrite H503.
    destruct (hasResponseKey error); simpl; intros Heq; discriminate Heq.
Qed.

(** C7: against a service that answers 503, [suggestReply] fails with
    the "AI reply generation is currently unavailable" message,
    [getAnalytics] with "Analytics are currently unavailable",
    [searchSimilar] with "Search functionality is currently unavailable"
    and [processReviews] with "Batch processing is currently
    unavailable".  More generally, for any service, each of the four
    operations throws its unavailable message exactly when its logical
    call ends in an error whose response has status 503; when the call
    ends in any other error the operation throws a different message,
    and when it is answered the operation resolves with the body. *)
Theorem unavailable_messages net id query k w
    (Hquery : whitespaceOnly query = false)
    (H503 : forall h c, exists e,
        net h c = inr e /\ responseStatus (ThrownError e) = Some 503) :
  fst (suggestReply net id w) =
    inr (ThrownError (Error "AI reply generation is currently unavailable"))
  /\ fst (getAnalytics net w) =
       inr (ThrownError (Error "Analytics are currently unavailable"))
  /\ fst (searchSimilar net query k w) =
       inr (ThrownError (Error "Search functionality is currently unavailable"))
  /\ fst (processReviews net w) =
       inr (ThrownError (Error "Batch processing is currently unavailable"))
  /\ (forall service w0,
        match retryRequest service (suggestReplyRequest id) 0 w0 with
        | (inl r, w1) => suggestReply service id w0 = (inl (data r), w1)
        | (inr error, w1) =>
            if statusIs (responseStatus error) 503
            then suggestReply service id w0 =
                   (inr (ThrownError (Error "AI reply generation is currently unavailable")),
                    w1)
            else fst (suggestReply service id w0) <>
                   inr (ThrownError (Error "AI reply generation is currently unavailable"))
        end)
  /\ (forall service w0,
        match retryRequest service analyticsRequest 0 w0 with
        | (inl r, w1) => getAnalytics service w0 = (inl (data r), w1)
        | (inr error, w1) =>
            if statusIs (responseStatus error) 503
            then getAnalytics service w0 =
                   (inr (ThrownError (Error "Analytics are currently unavailable")), w1)
            else fst (getAnalytics service w0) <>
                   inr (ThrownError (Error "Analytics are currently unavailable"))
        end)
  /\ (forall service w0,
        match retryRequest service (searchRequest query k) 0 w0 with
        | (inl r, w1) => searchSimilar service query k w0 = (inl (data r), w1)
        | (inr error, w1) =>
            if statusIs (responseStatus error) 503
            then searchSimilar service query k w0 =
                   (inr (ThrownError (Error "Search functionality is currently unavailable")),
                    w1)
            else fst (searchSimilar service query k w0) <>
                   inr (ThrownError (Error "Search functionality is currently unavailable"))
        end)
  /\ (forall service w0,
        match retryRequest service processRequest 0 w0 with
        | (inl r, w1) => processReviews service w0 = (inl (data r), w1)
        | (inr error, w1) =>
            if statusIs (responseStatus error) 503
            then processReviews service w0 =
                   (inr (ThrownError (Error "Batch processing is currently unavailable")), w1)
            else fst (processReviews service w0) <>
                   inr (ThrownError (Error "Batch processing is currently unavailable"))
        end).
Proof.
  assert (Hsuggest : forall service w0,
            suggestReply service id w0 =
              match retryRequest service (suggestReplyRequest id) 0 w0 with
              | (inl r, w1) => (inl (data r), w1)
              | (inr error, w1) => suggestReply_catch id error w1
              end) by (intros; apply facade_outcome).
  assert (Hanalytics : forall service w0,
            getAnalytics service w0 =
              match retryRequest service analyticsRequest 0 w0 with
              | (inl r, w1) => (inl (data r), w1)
              | (inr error, w1) => getAnalytics_catch error w1
              end) by (intros; apply facade_outcome).
  assert (Hsearch : forall service w0,
            searchSimilar service query k w0 =
              match retryRequest service (searchRequest query k) 0 w0 with
              | (inl r, w1) => (inl (data r), w1)
              | (inr error, w1) => searchSimilar_catch error w1
              end).
  { intros. rewrite (searchSimilar_unfold _ _ _ _ Hquery). apply facade_outcome. }
  assert (Hprocess : forall service w0,
            processReviews service w0 =
              match retryRequest service processRequest 0 w0 with
              | (inl r, w1) => (inl (data r), w1)
              | (inr error, w1) => processReviews_catch error w1
              end) by (intros; apply facade_outcome).
  assert (Hends : forall config, exists e w1,
             retryRequest net config 0 w = (inr (ThrownError e), w1)
             /\ statusIs (responseStatus (ThrownError e)) 503 = true).
  { intros config.
    destruct (retryRequest_throws net
                (fun e => responseStatus (ThrownError e) = Some 503) config 0 w)
      as (e & He & Hs); [intros h; apply H503|].
    exists e, (snd (retryRequest net config 0 w)). split.
    - rewrite <- He. apply surjective_pairing.
    - rewrite Hs. reflexivity. }
  split.
  { rewrite Hsuggest. destruct (Hends (suggestReplyRequest id)) as (e & w1 & -> & Hs).
    pose proof (suggestReply_catch_503 id (ThrownError e) w1) as Hc.
    rewrite Hs in Hc. rewrite Hc. reflexivity. }
  split.
  { rewrite Hanalytics. destruct (Hends analyticsRequest) as (e & w1 & -> & Hs).
    pose proof (getAnalytics_catch_503 (ThrownError e) w1) as Hc.
    rewrite Hs in Hc. rewrite Hc. reflexivity. }
  split.
  { rewrite Hsearch. destruct (Hends (searchRequest query k)) as (e & w1 & -> & Hs).
    pose proof (searchSimilar_catch_503 (ThrownError e) w1) as Hc.
    rewrite Hs in Hc. rewrite Hc. reflexivity. }
  split.
  { rewrite Hprocess. destruct (Hends processRequest) as (e & w1 & -> & Hs).
    pose proof (processReviews_catch_503 (ThrownError e) w1) as Hc.
    rewrite Hs in Hc. rewrite Hc. reflexivity. }
  split; [|split; [|split]]; intros service w0.
  - rewrite Hsuggest.
    destruct (retryRequest service (suggestReplyRequest id) 0 w0) as [[r|error] w1];
      [reflexivity|apply suggestReply_catch_503].
  - rewrite Hanalytics.
    destruct (retryRequest service analyticsRequest 0 w0) as [[r|error] w1];
      [reflexivity|apply getAnalytics_catch_503].
  - rewrite Hsearch.
    destruct (retryRequest service (searchRequest query k) 0 w0) as [[r|error] w1];
      [reflexivity|apply searchSimilar_catch_503].
  - rewrite Hprocess.
    destruct (retryRequest service processRequest 0 w0) as [[r|error] w1];
      [reflexivity|apply processReviews_catch_503].
Qed.

Lemma unavailable_messages_witness :
  fst (suggestReply (alwaysFails (httpError 503 None)) 7 []) =
    inr (ThrownError (Error "AI reply generation is currently unavailable"))
  /\ fst (searchSimilar (alwaysFails (httpError 503 None)) "slow service" 5 []) =
       inr (ThrownError (Error "Search functionality is currently unavailable"))
  /\ fst (getAnalytics (alwaysFails (httpError 500 None)) []) <>
       inr (ThrownError (Error "Analytics are currently unavailable")).
Proof.
  assert (H503 : forall (h : World) (c : AxiosRequestConfig), exists e,
             alwaysFails (httpError 503 None) h c = inr e
             /\ responseStatus (ThrownError e) = Some 503).
  { intros h c. eexists. split; reflexivity. }
  destruct (unavailable_messages (alwaysFails (httpError 503 None)) 7 "slow service" 5 []
              eq_refl H503) as (Hsuggest & _ & Hsearch & _ & _ & Hanalytics & _).
  split; [exact Hsuggest|]. split; [exact Hsearch|].
  exact (Hanalytics (alwaysFails (httpError 500 None)) []).
Defined.

(** What the seven handlers make of an error whose response carries a
    non-empty [detail]. *)
Lemma catch_detail id e r d w :
  response e = Present r ->
  detail (data r) = Some d ->
  d <> "" ->
  status r <> 404 ->
  status r <> 503 ->
  getAnalytics_catch (ThrownError e) w =
    (inr (ThrownError (Error ("Failed to fetch analytics: " +:+ d))), w)
  /\ searchSimilar_catch (ThrownError e) w =
       (inr (ThrownError (Error ("Failed to search reviews: " +:+ d))), w)
  /\ processReviews_catch (ThrownError e) w =
       (inr (ThrownError (Error ("Failed to process reviews: " +:+ d))), w)
  /\ getReviews_catch (ThrownError e) w =
       (inr (ThrownError (Error ("Failed to fetch reviews: " +:+ message e))), w)
  /\ getReview_catch id (ThrownError e) w =
       (inr (ThrownError (Error ("Failed to fetch review: " +:+ message e))), w)
  /\ ingestReviews_catch (ThrownError e) w =
       (inr (ThrownError (Error ("Failed to ingest reviews: " +:+ message e))), w)
  /\ suggestReply_catch id (ThrownError e) w =
       (inr (ThrownError (Error ("Failed to generate reply: " +:+ message e))), w).
Proof.
  intros Hresponse Hdetail Hnonempty H404 H503.
  assert (Hd : orElse (Some d) (message e) = d).
  { unfold orElse. destruct (String.eqb_spec d ""); [contradiction|reflexivity]. }
  assert (Hno404 : (status r =? 404) = false) by (apply Z.eqb_neq; exact H404).
  assert (Hno503 : (status r =? 503) = false) by (apply Z.eqb_neq; exact H503).
  unfold getAnalytics_catch, searchSimilar_catch, processReviews_catch, getReviews_catch,
    getReview_catch, ingestReviews_catch, suggestReply_catch, detailOrMessage,
    messageOrUnknown, hasResponseKey, responseStatus, responseDetail, statusIs.
  simpl. rewrite Hresponse, Hdetail, Hd, Hno404, Hno503. simpl.
  repeat split.
Qed.

(** X9: what a caller reads of the server's explanation.  Against a
    service whose failures carry a response with a non-empty [detail]
    (and a status that is neither 404 nor 503), [getAnalytics],
    [searchSimilar] and [processReviews] fail with that detail after
    their prefix, while [getReviews], [getReview], [ingestReviews] and
    [suggestReply] fail with the message of the axios error after their
    prefix and never show the detail. *)
Theorem server_detail_visibility net (supplied : gmap string JsPrim) id review rest
    query k w d m
    (Hquery : whitespaceOnly query = false)
    (Hnonempty : d <> "")
    (Hfails : forall h c, exists e r,
        net h c = inr e /\ response e = Present r /\ detail (data r) = Some d
        /\ status r <> 404 /\ status r <> 503 /\ message e = m) :
  fst (getAnalytics net w) =
    inr (ThrownError (Error ("Failed to fetch analytics: " +:+ d)))
  /\ fst (searchSimilar net query k w) =
       inr (ThrownError (Error ("Failed to search reviews: " +:+ d)))
  /\ fst (processReviews net w) =
       inr (ThrownError (Error ("Failed to process reviews: " +:+ d)))
  /\ fst (getReviews net supplied w) =
       inr (ThrownError (Error ("Failed to fetch reviews: " +:+ m)))
  /\ fst (getReview net id w) =
       inr (ThrownError (Error ("Failed to fetch review: " +:+ m)))
  /\ fst (ingestReviews net (ArrayOf (review :: rest)) w) =
       inr (ThrownError (Error ("Failed to ingest reviews: " +:+ m)))
  /\ fst (suggestReply net id w) =
       inr (ThrownError (Error ("Failed to generate reply: " +:+ m))).
Proof.
  assert (Hends : forall config, exists e r w1,
             retryRequest net config 0 w = (inr (ThrownError e), w1)
             /\ response e = Present r /\ detail (data r) = Some d
             /\ status r <> 404 /\ status r <> 503 /\ message e = m).
  { intros config.
    destruct (retryRequest_throws net
                (fun e => exists r, response e = Present r /\ detail (data r) = Some d
                                    /\ status r <> 404 /\ status r <> 503 /\ message e = m)
                config 0 w) as (e & He & r & Hr);
      [intros h; destruct (Hfails h config) as (e & r & H1 & H2); eauto|].
    exists e, r, (snd (retryRequest net config 0 w)). split; [|exact Hr].
    rewrite <- He. apply surjective_pairing. }
  assert (Hop : forall config handler, exists e r w1,
             try_catch (await response <- retryRequest net config 0; ret (data response))
               handler w = handler (ThrownError e) w1
             /\ response e = Present r /\ detail (data r) = Some d
             /\ status r <> 404 /\ status r <> 503 /\ message e = m).
  { intros config handler. destruct (Hends config) as (e & r & w1 & Hrun & Hr).
    exists e, r, w1. split; [|exact Hr]. rewrite facade_outcome, Hrun. reflexivity. }
  split.
  { unfold getAnalytics.
    destruct (Hop analyticsRequest getAnalytics_catch)
      as (e & r & w1 & Hrun & Hr & Hd & H404 & H503 & Hm).
    unfold analyticsRequest in Hrun. rewrite Hrun.
    destruct (catch_detail id e r d w1 Hr Hd Hnonempty H404 H503) as (-> & _).
    reflexivity. }
  split.
  { rewrite (searchSimilar_unfold _ _ _ _ Hquery).
    destruct (Hop (searchRequest query k) searchSimilar_catch)
      as (e & r & w1 & Hrun & Hr & Hd & H404 & H503 & Hm).
    rewrite Hrun.
    destruct (catch_detail id e r d w1 Hr Hd Hnonempty H404 H503) as (_ & -> & _).
    reflexivity. }
  split.
  { unfold processReviews.
    destruct (Hop processRequest processReviews_catch)
      as (e & r & w1 & Hrun & Hr & Hd & H404 & H503 & Hm).
    unfold processRequest in Hrun. rewrite Hrun.
    destruct (catch_detail id e r d w1 Hr Hd Hnonempty H404 H503) as (_ & _ & -> & _).
    reflexivity. }
  split.
  { unfold getReviews.
    destruct (Hop (reviewsRequest supplied) getReviews_catch)
      as (e & r & w1 & Hrun & Hr & Hd & H404 & H503 & Hm).
    unfold reviewsRequest in Hrun. rewrite Hrun.
    destruct (catch_detail id e r d w1 Hr Hd Hnonempty H404 H503)
      as (_ & _ & _ & -> & _).
    rewrite Hm. reflexivity. }
  split.
  { unfold getReview.
    destruct (Hop (reviewRequest id) (getReview_catch id))
      as (e & r & w1 & Hrun & Hr & Hd & H404 & H503 & Hm).
    unfold reviewRequest in Hrun. rewrite Hrun.
    destruct (catch_detail id e r d w1 Hr Hd Hnonempty H404 H503)
      as (_ & _ & _ & _ & -> & _).
    rewrite Hm. reflexivity. }
  split.
  { rewrite ingestReviews_unfold.
    destruct (Hop (ingestRequest (review :: rest)) ingestReviews_catch)
      as (e & r & w1 & Hrun & Hr & Hd & H404 & H503 & Hm).
    rewrite Hrun.
    destruct (catch_detail id e r d w1 Hr Hd Hnonempty H404 H503)
      as (_ & _ & _ & _ & _ & -> & _).
    rewrite Hm. reflexivity. }
  unfold suggestReply.
  destruct (Hop (suggestReplyRequest id) (suggestReply_catch id))
    as (e & r & w1 & Hrun & Hr & Hd & H404 & H503 & Hm).
  unfold suggestReplyRequest in Hrun. rewrite Hrun.
  destruct (catch_detail id e r d w1 Hr Hd Hnonempty H404 H503)
    as (_ & _ & _ & _ & _ & _ & ->).
  rewrite Hm. reflexivity.
Qed.

Lemma server_detail_visibility_witness :
  fst (getAnalytics (alwaysFails (httpError 500 (Some "Database is locked"))) []) =
    inr (ThrownError (Error "Failed to fetch analytics: Database is locked"))
  /\ fst (getReview (alwaysFails (httpError 500 (Some "Database is locked"))) 7 []) =
       inr (ThrownError
              (Error "Failed to fetch review: Request failed with status code 500")).
Proof.
  assert (Hfails : forall (h : World) (c : AxiosRequestConfig), exists e r,
             alwaysFails (httpError 500 (Some "Database is locked")) h c = inr e
             /\ response e = Present r /\ detail (data r) = Some "Database is locked"
             /\ status r <> 404 /\ status r <> 503
             /\ message e = "Request failed with status code 500").
  { intros h c. eexists _, _. split; [reflexivity|]. split; [reflexivity|].
    split; [reflexivity|]. simpl. split; [lia|]. split; [lia|reflexivity]. }
  destruct (server_detail_visibility (alwaysFails (httpError 500 (Some "Database is locked")))
              ∅ 7 (mkReview 1 "NYC" 5 "Great!" "2025-01-15" None None) [] "food" 5 []
              "Database is locked" "Request failed with status code 500"
              eq_refl ltac:(discriminate) Hfails)
    as (Ha & _ & _ & _ & Hr & _).
  split; [exact Ha|exact Hr].
Defined.

(** ** More on the health monitor *)

Lemma checkApiHealth_world net st w :
  snd (checkApiHealth net st w) = w ++ [NetCall healthRequest].
Proof.
  unfold checkApiHealth. rewrite healthCheck_unfold.
  destruct (net w healthRequest) as [r|e]; [reflexivity|].
  destruct (healthCheck_catch_throws (ThrownError e) (w ++ [NetCall healthRequest]))
    as (msg & ->). reflexivity.
Qed.

Lemma checkApiHealth_settles net st w :
  apiStatus (fst (checkApiHealth net st w)) <> checking
  /\ isOnline (fst (checkApiHealth net st w)) = isOnline st.
Proof.
  unfold checkApiHealth. rewrite healthCheck_unfold.
  destruct (net w healthRequest) as [r|e]; [split; [discriminate|reflexivity]|].
  destruct (healthCheck_catch_throws (ThrownError e) (w ++ [NetCall healthRequest]))
    as (msg & ->). split; [discriminate|reflexivity].
Qed.

Lemma connectivity_Checking st :
  connectivity st = Checking -> apiStatus st = checking.
Proof. destruct st as [[] []]; cbv; intros H; congruence. Qed.

Lemma connectivity_offline st : isOnline st = false -> connectivity st = Offline.
Proof. destruct st as [[] []]; cbv; intros H; congruence. Qed.

Section MonitorRuns.

Variable net : World -> AxiosRequestConfig -> AxiosResponse + JsError.

Lemma run_length sigs : forall st w, length (fst (run net sigs st w)) = length sigs.
Proof.
  induction sigs as [|sig rest IH]; intros st w; [reflexivity|]. simpl.
  destruct (step net sig st w) as [st1 w1].
  specialize (IH st1 w1). destruct (run net rest st1 w1) as [shown final].
  simpl in *. rewrite IH. reflexivity.
Qed.

(** X10: a run of the monitor makes one [GET /health] per poll and
    nothing else: the browser's [online] and [offline] events never reach
    the network, a failed poll is not retried, and no backoff wait is
    ever made; and it shows one status per signal. *)
Theorem monitor_calls_are_polls sigs : forall st w,
  snd (snd (run net sigs st w)) = w ++ repeat (NetCall healthRequest) (pollCount sigs)
  /\ length (fst (run net sigs st w)) = length sigs.
Proof.
  induction sigs as [|sig rest IH]; intros st w.
  - simpl. rewrite app_nil_r. auto.
  - split; [|apply run_length]. simpl.
    destruct (step net sig st w) as [st1 w1] eqn:Hstep.
    destruct (IH st1 w1) as [IHw _].
    destruct (run net rest st1 w1) as [shown final]. simpl in *. rewrite IHw.
    destruct sig; simpl in Hstep.
    + injection Hstep as <- <-. reflexivity.
    + injection Hstep as <- <-. reflexivity.
    + pose proof (checkApiHealth_world net st w) as Hw. rewrite Hstep in Hw.
      simpl in Hw. rewrite Hw, <- app_assoc. reflexivity.
Qed.

Lemma step_keeps_settled sig st w :
  apiStatus st <> checking -> apiStatus (fst (step net sig st w)) <> checking.
Proof.
  destruct sig; simpl; auto. intros _. apply checkApiHealth_settles.
Qed.

Lemma run_settled sigs : forall st w,
  apiStatus st <> checking ->
  Forall (fun shown => shown <> Checking) (fst (run net sigs st w))
  /\ apiStatus (fst (snd (run net sigs st w))) <> checking.
Proof.
  induction sigs as [|sig rest IH]; intros st w Hst; [split; [constructor|exact Hst]|].
  simpl. pose proof (step_keeps_settled sig st w Hst) as Hstep.
  destruct (step net sig st w) as [st1 w1]. simpl in Hstep.
  destruct (IH st1 w1 Hstep) as [IHshown IHfinal].
  destruct (run net rest st1 w1) as [shown final]. simpl in *.
  split; [|exact IHfinal]. constructor; [|exact IHshown].
  intros Hc. apply Hstep, connectivity_Checking, Hc.
Qed.

Lemma run_app sigs1 : forall sigs2 st w,
  run net (sigs1 ++ sigs2) st w =
    (fst (run net sigs1 st w)
       ++ fst (run net sigs2 (fst (snd (run net sigs1 st w)))
                 (snd (snd (run net sigs1 st w)))),
     snd (run net sigs2 (fst (snd (run net sigs1 st w)))
            (snd (snd (run net sigs1 st w))))).
Proof.
  induction sigs1 as [|sig rest IH]; intros sigs2 st w.
  - simpl. destruct (run net sigs2 st w) as [shown final]. reflexivity.
  - simpl. destruct (step net sig st w) as [st1 w1].
    rewrite IH. destruct (run net rest st1 w1) as [shown [st2 w2]]. simpl.
    destruct (run net sigs2 st2 w2) as [shown2 final2]. reflexivity.
Qed.

(** X11: once a poll has completed the monitor never goes back to
    Checking: from the first poll of a run on, every status shown is
    Online or Offline, and [apiStatus] is never ['checking'] again. *)
Theorem monitor_never_checks_again before after st w :
  Forall (fun shown => shown <> Checking)
    (drop (length before) (fst (run net (before ++ Poll :: after) st w)))
  /\ apiStatus (fst (snd (run net (before ++ Poll :: after) st w))) <> checking.
Proof.
  rewrite run_app. simpl fst. simpl snd.
  rewrite <- (run_length before st w) at 1.
  rewrite drop_app_length.
  destruct (run net before st w) as [shown [st1 w1]]. simpl.
  pose proof (checkApiHealth_settles net st1 w1) as [Hsettled _].
  destruct (checkApiHealth net st1 w1) as [st2 w2]. simpl in Hsettled.
  destruct (run_settled after st2 w2 Hsettled) as [Hshown Hfinal].
  destruct (run net after st2 w2) as [shown2 final2]. simpl in *.
  split; [|exact Hfinal]. constructor; [|exact Hshown].
  intros Hc. apply Hsettled, connectivity_Checking, Hc.
Qed.

(** X12: after the browser's [offline] event the monitor shows Offline
    through any number of polls, successful or not: a reachable API does
    not clear the "No internet connection" banner. *)
Theorem monitor_offline_until_online n st w :
  fst (run net (BrowserOffline :: repeat Poll n) st w) = repeat Offline (S n).
Proof.
  simpl.
  assert (Hpolls : forall m st' w', isOnline st' = false ->
             fst (run net (repeat Poll m) st' w') = repeat Offline m).
  { induction m as [|m IH]; intros st' w' Hoff; [reflexivity|]. simpl.
    pose proof (checkApiHealth_settles net st' w') as [_ Hsame].
    destruct (checkApiHealth net st' w') as [st1 w1]. simpl in Hsame.
    assert (Hoff1 : isOnline st1 = false) by congruence.
    specialize (IH st1 w1 Hoff1).
    destruct (run net (repeat Poll m) st1 w1) as [shown final]. simpl in *.
    rewrite IH, (connectivity_offline st1 Hoff1). reflexivity. }
  specialize (Hpolls n (handleOffline st) w eq_refl).
  destruct (run net (repeat Poll n) (handleOffline st) w) as [shown final].
  simpl in *. rewrite Hpolls.
  rewrite (connectivity_offline (handleOffline st) eq_refl). reflexivity.
Qed.

End MonitorRuns.

(** ** The error boundary *)



(** ** The upload form *)





Section UploadValidation.

Context {runtime : DataIngestion.Runtime}.







End UploadValidation.


Section Upload.

Context {runtime : DataIngestion.Runtime}.

Variable net : World -> AxiosRequestConfig -> AxiosResponse + JsError.
Variable resultMessage : ResponseData -> string.

Lemma ingestReviews_world reviews w :
  reviews <> [] ->
  exists n : nat,
    snd (ingestReviews net (ArrayOf reviews) w) =
      w ++ retries (ingestRequest reviews) 0 n ++ [NetCall (ingestRequest reviews)].
Proof.
  intros Hne. unfold ingestReviews.
  destruct reviews as [|review rest]; [contradiction|]. simpl length. simpl Nat.eqb. cbv iota.
  fold (ingestRequest (review :: rest)).
  rewrite facade_world by reflexivity.
  destruct (retryRequest_shape net (ingestRequest (review :: rest)) 0 w)
    as (n & _ & Hs & _).
  exists n. exact Hs.
Qed.


(** X16: the messages [handleUpload] shows without touching the network.
    An unreadable file gives [Error: Unknown error]; text that is not
    JSON gives the parser's message; JSON that is not an array, and a
    review that fails a check, give the component's own messages; and an
    empty array passes the component's checks and is stopped by the
    facade, whose wrapped validation message is shown. *)
Theorem handleUpload_rejections st w content
    (Hfile : DataIngestion.file st = Some content) :
  match content with
  | DataIngestion.Unreadable =>
      DataIngestion.handleUpload net resultMessage st w =
        (DataIngestion.mkState (Some content) false "Error: Unknown error" "error"
           (DataIngestion.processing st), w)
  | DataIngestion.Malformed syntaxMessage =>
      DataIngestion.handleUpload net resultMessage st w =
        (DataIngestion.mkState (Some content) false ("Error: " +:+ syntaxMessage) "error"
           (DataIngestion.processing st), w)
  | DataIngestion.ParsedOther =>
      DataIngestion.handleUpload net resultMessage st w =
        (DataIngestion.mkState (Some content) false
           "Error: File must contain an array of reviews" "error"
           (DataIngestion.processing st), w)
  | DataIngestion.ParsedArray [] =>
      DataIngestion.handleUpload net resultMessage st w =
        (DataIngestion.mkState (Some content) false
           "Error: Failed to ingest reviews: Reviews array is required and cannot be empty"
           "error" (DataIngestion.processing st), w)
  | DataIngestion.ParsedArray items =>
      match DataIngestion.validateReviews items with
      | Some msg =>
          DataIngestion.handleUpload net resultMessage st w =
            (DataIngestion.mkState (Some content) false ("Error: " +:+ msg) "error"
               (DataIngestion.processing st), w)
      | None => snd (DataIngestion.handleUpload net resultMessage st w) <> w
      end
  end.
Proof.
  unfold DataIngestion.handleUpload. rewrite Hfile.
  destruct content as [|syntaxMessage| |[|review rest]]; try reflexivity.
  destruct (DataIngestion.validateReviews (review :: rest)) as [msg|] eqn:Hvalid.
  - unfold DataIngestion.uploadFile. rewrite Hvalid. reflexivity.
  - unfold DataIngestion.uploadFile. rewrite Hvalid.
    destruct (ingestReviews_world (map DataIngestion.asReview (review :: rest)) w)
      as (n & Hw); [discriminate|].
    destruct (ingestReviews net (ArrayOf (map DataIngestion.asReview (review :: rest))) w)
      as [[result|error] w1]; simpl in *; subst w1; intros Heq;
      apply (f_equal (@length _)) in Heq; rewrite !length_app in Heq; simpl in Heq; lia.
Qed.

(** X17: when the service answers every call with 503,
    [handleProcessReviews] shows
    [Error: Batch processing is currently unavailable] after the four
    attempts of the retry engine, and leaves the [processing] flag
    off. *)
Theorem handleProcessReviews_unavailable st w
    (H503 : forall h c, exists e,
        net h c = inr e /\ responseStatus (ThrownError e) = Some 503) :
  fst (DataIngestion.handleProcessReviews net resultMessage st w) =
    DataIngestion.mkState (DataIngestion.file st) (DataIngestion.uploading st)
      "Error: Batch processing is currently unavailable" "error" false
  /\ countCalls (snd (DataIngestion.handleProcessReviews net resultMessage st w))
     = (countCalls w + 4)%nat.
Proof.
  pose (config := {| method := POST; url := "/process-reviews";
                     params := None; body := None |}).
  assert (Hgo : forall n w', n < MAX_RETRIES ->
            retryRequest net config n w' =
            retryRequest net config (n + 1)
              ((w' ++ [NetCall config]) ++ [Wait (1000 * (n + 1))])).
  { intros n w' Hn. destruct (H503 w' config) as (e & He & Hs).
    apply (retryRequest_again net _ _ _ e); auto.
    apply unavailable_shouldRetry. unfold classify. rewrite Hs. reflexivity. }
  destruct (H503 (((((((w ++ [NetCall config]) ++ [Wait (1000 * (0 + 1))])
                        ++ [NetCall config]) ++ [Wait (1000 * (0 + 1 + 1))])
                      ++ [NetCall config]) ++ [Wait (1000 * (0 + 1 + 1 + 1))])) config)
    as (e & He & Hs).
  assert (Hrun : retryRequest net config 0 w =
                 (inr (ThrownError e),
                  ((((((w ++ [NetCall config]) ++ [Wait (1000 * (0 + 1))])
                        ++ [NetCall config]) ++ [Wait (1000 * (0 + 1 + 1))])
                      ++ [NetCall config]) ++ [Wait (1000 * (0 + 1 + 1 + 1))])
                    ++ [NetCall config])).
  { rewrite (Hgo 0), (Hgo (0 + 1)), (Hgo (0 + 1 + 1)) by (unfold MAX_RETRIES; lia).
    apply retryRequest_stop; [exact He|]. left. unfold MAX_RETRIES. lia. }
  unfold DataIngestion.handleProcessReviews, processReviews, try_catch, bind.
  fold config. rewrite Hrun.
  unfold processReviews_catch. rewrite (hasResponseKey_status _ _ Hs), Hs. simpl.
  split; [reflexivity|]. rewrite !countCalls_app. simpl. lia.
Qed.

End Upload.

Lemma handleUpload_rejections_witness :
  DataIngestion.handleUpload (runtime := sampleRuntime) (alwaysOk (mkData None "{}")) payload
    (DataIngestion.mkState (Some (DataIngestion.ParsedArray [])) false "" "" false) []
  = (DataIngestion.mkState (Some (DataIngestion.ParsedArray [])) false
       "Error: Failed to ingest reviews: Reviews array is required and cannot be empty"
       "error" false, []).
Proof.
  exact (handleUpload_rejections (runtime := sampleRuntime)
           (alwaysOk (mkData None "{}")) payload
           (DataIngestion.mkState (Some (DataIngestion.ParsedArray [])) false "" "" false)
           [] (DataIngestion.ParsedArray []) eq_refl).
Defined.

Lemma handleProcessReviews_unavailable_witness :
  (forall (h : World) (c : AxiosRequestConfig), exists e,
      alwaysFails (httpError 503 None) h c = inr e
      /\ responseStatus (ThrownError e) = Some 503)
  /\ DataIngestion.message
       (fst (DataIngestion.handleProcessReviews (alwaysFails (httpError 503 None)) payload
               (DataIngestion.mkState None false "" "" true) []))
     = "Error: Batch processing is currently unavailable".
Proof.
  assert (H503 : forall (h : World) (c : AxiosRequestConfig), exists e,
             alwaysFails (httpError 503 None) h c = inr e
             /\ responseStatus (ThrownError e) = Some 503).
  { intros h c. eexists. split; reflexivity. }
  split; [exact H503|].
  rewrite (proj1 (handleProcessReviews_unavailable (alwaysFails (httpError 503 None))
                    payload (DataIngestion.mkState None false "" "" true) [] H503)).
  reflexivity.
Defined.

(** ** The reviews list *)

Lemma filterKeys_not_pagination key :
  key ∈ filterKeys -> key <> "page" /\ key <> "size" /\ key <> "page_size".
Proof.
  unfold filterKeys. rewrite !elem_of_union, !elem_of_singleton.
  intros H. repeat split; intros ->; intuition discriminate.
Qed.

Lemma keyName_filterKeys key : ReviewsList.keyName key ∈ filterKeys.
Proof.
  unfold filterKeys. rewrite !elem_of_union, !elem_of_singleton.
  destruct key; simpl; auto 10.
Qed.

Lemma filters_no_key (filters : gmap string JsPrim) key :
  dom filters ⊆ filterKeys -> key ∉ filterKeys -> filters !! key = None.
Proof. intros Hdom Hkey. apply not_elem_of_dom. intros Hin. apply Hkey, Hdom, Hin. Qed.

Lemma Forall_repeat {A : Type} (P : A -> Prop) (x : A) n : P x -> Forall P (repeat x n).
Proof. intros Hx. induction n as [|n IH]; simpl; constructor; assumption. Qed.

Section ReviewsListRuns.

Variable net : World -> AxiosRequestConfig -> AxiosResponse + JsError.
Variable reviewsOf : ResponseData -> list Review.
Variable totalOf : ResponseData -> Z.
Variable totalPagesOf : ResponseData -> Z.

Lemma loadReviews_issues st w :
  exists n : nat,
    snd (ReviewsList.loadReviews net reviewsOf totalOf totalPagesOf st w) =
      w ++ retries
             {| method := GET; url := "/reviews";
                params := Some (spread {[ "page" := JsNum 1; "page_size" := JsNum 10 ]}
                                  (ReviewsList.loadParams st));
                body := None |} 0 n
        ++ [NetCall
              {| method := GET; url := "/reviews";
                 params := Some (spread {[ "page" := JsNum 1; "page_size" := JsNum 10 ]}
                                   (ReviewsList.loadParams st));
                 body := None |}].
Proof.
  destruct (getReviews_issues net (ReviewsList.loadParams st) w) as (n & Hn).
  exists n. rewrite <- Hn. unfold ReviewsList.loadReviews.
  destruct (getReviews net (ReviewsList.loadParams st) w) as [[d|error] w1]; reflexivity.
Qed.

Lemma loadReviews_keeps st w :
  ReviewsList.page
    (ReviewsList.pagination
       (fst (ReviewsList.loadReviews net reviewsOf totalOf totalPagesOf st w)))
  = ReviewsList.page (ReviewsList.pagination st)
  /\ ReviewsList.size
       (ReviewsList.pagination
          (fst (ReviewsList.loadReviews net reviewsOf totalOf totalPagesOf st w)))
     = ReviewsList.size (ReviewsList.pagination st)
  /\ ReviewsList.filters
       (fst (ReviewsList.loadReviews net reviewsOf totalOf totalPagesOf st w))
     = ReviewsList.filters st.
Proof.
  unfold ReviewsList.loadReviews.
  destruct (getReviews net (ReviewsList.loadParams st) w) as [[d|error] w1];
    repeat split.
Qed.

Lemma loadParams_query st :
  dom (ReviewsList.filters st) ⊆ filterKeys ->
  asksForPage (ReviewsList.page (ReviewsList.pagination st))
    (ReviewsList.size (ReviewsList.pagination st))
    {| method := GET; url := "/reviews";
       params := Some (spread {[ "page" := JsNum 1; "page_size" := JsNum 10 ]}
                         (ReviewsList.loadParams st));
       body := None |}
  /\ forall key value,
       ReviewsList.filters st !! key = Some value ->
       spread {[ "page" := JsNum 1; "page_size" := JsNum 10 ]} (ReviewsList.loadParams st)
         !! key = Some value.
Proof.
  intros Hdom. split.
  - split; [reflexivity|]. split; [reflexivity|]. eexists. split; [reflexivity|].
    unfold ReviewsList.loadParams. split; [|split].
    + apply spread_supplied. rewrite lookup_insert_ne by discriminate.
      apply lookup_insert_eq.
    + apply spread_supplied. apply lookup_insert_eq.
    + rewrite spread_default; [reflexivity|].
      rewrite !lookup_insert_ne by discriminate.
      apply filters_no_key; [exact Hdom|].
      intros Hin. apply filterKeys_not_pagination in Hin. tauto.
  - intros key value Hkey. apply spread_supplied. unfold ReviewsList.loadParams.
    assert (Hin : key ∈ filterKeys) by (apply Hdom, elem_of_dom; eauto).
    apply filterKeys_not_pagination in Hin. destruct Hin as (Hp & Hs & _).
    rewrite !lookup_insert_ne by congruence. exact Hkey.
Qed.

(** X18: what [loadReviews] asks the service.  Every call is
    [GET /reviews] with the page and the size of the pagination state
    under [page] and [size], the fixed [page_size = 10] beside them (the
    size chosen in the component never travels under [page_size]), and
    every filter as it stands in the state, empty strings included. *)
Theorem loadReviews_query st w
    (Hfilters : dom (ReviewsList.filters st) ⊆ filterKeys) :
  exists (config : AxiosRequestConfig) (n : nat),
    snd (ReviewsList.loadReviews net reviewsOf totalOf totalPagesOf st w)
    = w ++ retries config 0 n ++ [NetCall config]
    /\ asksForPage (ReviewsList.page (ReviewsList.pagination st))
         (ReviewsList.size (ReviewsList.pagination st)) config
    /\ exists query,
         params config = Some query
         /\ forall key value,
              ReviewsList.filters st !! key = Some value -> query !! key = Some value.
Proof.
  destruct (loadReviews_issues st w) as (n & Hn).
  destruct (loadParams_query st Hfilters) as [Hpage Hkeys].
  eexists _, n. split; [exact Hn|]. split; [exact Hpage|].
  eexists. split; [reflexivity|exact Hkeys].
Qed.

Lemma loadReviews_invariant st w :
  1 <= ReviewsList.page (ReviewsList.pagination st) ->
  dom (ReviewsList.filters st) ⊆ filterKeys ->
  Forall asksForValidPage (requests w) ->
  1 <= ReviewsList.page
         (ReviewsList.pagination
            (fst (ReviewsList.loadReviews net reviewsOf totalOf totalPagesOf st w)))
  /\ dom (ReviewsList.filters
            (fst (ReviewsList.loadReviews net reviewsOf totalOf totalPagesOf st w)))
     ⊆ filterKeys
  /\ Forall asksForValidPage
       (requests (snd (ReviewsList.loadReviews net reviewsOf totalOf totalPagesOf st w))).
Proof.
  intros Hpage Hdom Hw.
  destruct (loadReviews_keeps st w) as (-> & _ & ->).
  split; [exact Hpage|]. split; [exact Hdom|].
  destruct (loadReviews_issues st w) as (n & ->).
  destruct (loadParams_query st Hdom) as [Hasks _].
  rewrite !requests_app, requests_retries. simpl.
  assert (Hvalid : asksForValidPage
            {| method := GET; url := "/reviews";
               params := Some (spread {[ "page" := JsNum 1; "page_size" := JsNum 10 ]}
                                 (ReviewsList.loadParams st));
               body := None |}).
  { eexists _, _. split; [exact Hpage|exact Hasks]. }
  apply Forall_app. split; [exact Hw|].
  apply Forall_app. split; [apply Forall_repeat, Hvalid|].
  constructor; [exact Hvalid|constructor].
Qed.

Lemma changePage_invariant newPage st w :
  1 <= newPage ->
  dom (ReviewsList.filters st) ⊆ filterKeys ->
  Forall asksForValidPage (requests w) ->
  1 <= ReviewsList.page
         (ReviewsList.pagination
            (fst (ReviewsList.changePage net reviewsOf totalOf totalPagesOf newPage st w)))
  /\ dom (ReviewsList.filters
            (fst (ReviewsList.changePage net reviewsOf totalOf totalPagesOf newPage st w)))
     ⊆ filterKeys
  /\ Forall asksForValidPage
       (requests
          (snd (ReviewsList.changePage net reviewsOf totalOf totalPagesOf newPage st w))).
Proof.
  intros Hnew Hdom Hw. unfold ReviewsList.changePage.
  destruct (newPage =? ReviewsList.page (ReviewsList.pagination st)).
  - simpl. auto.
  - apply loadReviews_invariant; simpl; auto.
Qed.

Lemma step_invariant ev st w :
  1 <= ReviewsList.page (ReviewsList.pagination st) ->
  dom (ReviewsList.filters st) ⊆ filterKeys ->
  Forall asksForValidPage (requests w) ->
  1 <= ReviewsList.page
         (ReviewsList.pagination
            (fst (ReviewsList.step net reviewsOf totalOf totalPagesOf ev st w)))
  /\ dom (ReviewsList.filters
            (fst (ReviewsList.step net reviewsOf totalOf totalPagesOf ev st w)))
     ⊆ filterKeys
  /\ Forall asksForValidPage
       (requests (snd (ReviewsList.step net reviewsOf totalOf totalPagesOf ev st w))).
Proof.
  intros Hpage Hdom Hw.
  assert (Hcur : ReviewsList.currentPage st = ReviewsList.page (ReviewsList.pagination st)).
  { unfold ReviewsList.currentPage.
    destruct (Z.eqb_spec (ReviewsList.page (ReviewsList.pagination st)) 0); [lia|reflexivity]. }
  destruct ev as [key value| | | |i]; simpl.
  - apply loadReviews_invariant; simpl; [lia| |exact Hw].
    rewrite dom_insert. intros k Hk. apply elem_of_union in Hk.
    destruct Hk as [Hk|Hk]; [|apply Hdom, Hk].
    apply elem_of_singleton in Hk. subst k. apply keyName_filterKeys.
  - apply loadReviews_invariant; assumption.
  - destruct (ReviewsList.paginationShown st); simpl; [|auto].
    destruct (Z.eqb_spec (ReviewsList.currentPage st) 1); simpl; [auto|].
    apply changePage_invariant; [lia|assumption|assumption].
  - destruct (ReviewsList.paginationShown st); simpl; [|auto].
    destruct (ReviewsList.currentPage st =? ReviewsList.total_pages (ReviewsList.pagination st));
      simpl; [auto|].
    apply changePage_invariant; [lia|assumption|assumption].
  - destruct (ReviewsList.paginationShown st); simpl; [|auto].
    destruct (Z.of_nat i <? Z.min 5 (ReviewsList.total_pages (ReviewsList.pagination st)));
      simpl; [|auto].
    apply changePage_invariant; [lia|assumption|assumption].
Qed.

(** X19: the reviews list never asks for a page below 1.  After mounting
    and any sequence of filter changes, refreshes and presses of the
    pagination buttons (each acting only when it is rendered and
    enabled), the page of the state is at least 1, the filters hold only
    members of [ReviewFilters], and every request sent carries a page of
    at least 1 next to [page_size = 10]. *)
Theorem reviews_list_pages_from_one evs :
  1 <= ReviewsList.page
         (ReviewsList.pagination
            (fst (ReviewsList.mount net reviewsOf totalOf totalPagesOf evs [])))
  /\ dom (ReviewsList.filters
            (fst (ReviewsList.mount net reviewsOf totalOf totalPagesOf evs [])))
     ⊆ filterKeys
  /\ Forall asksForValidPage
       (requests (snd (ReviewsList.mount net reviewsOf totalOf totalPagesOf evs []))).
Proof.
  assert (Hrun : forall evs' st w,
             1 <= ReviewsList.page (ReviewsList.pagination st) ->
             dom (ReviewsList.filters st) ⊆ filterKeys ->
             Forall asksForValidPage (requests w) ->
             1 <= ReviewsList.page
                    (ReviewsList.pagination
                       (fst (ReviewsList.run net reviewsOf totalOf totalPagesOf evs' st w)))
             /\ dom (ReviewsList.filters
                       (fst (ReviewsList.run net reviewsOf totalOf totalPagesOf evs' st w)))
                ⊆ filterKeys
             /\ Forall asksForValidPage
                  (requests
                     (snd (ReviewsList.run net reviewsOf totalOf totalPagesOf evs' st w)))).
  { induction evs' as [|ev rest IH]; intros st w Hpage Hdom Hw; [simpl; auto|].
    simpl. destruct (step_invariant ev st w Hpage Hdom Hw) as (Hp1 & Hd1 & Hw1).
    destruct (ReviewsList.step net reviewsOf totalOf totalPagesOf ev st w) as [st1 w1].
    apply IH; assumption. }
  unfold ReviewsList.mount.
  assert (Hinit : dom (ReviewsList.filters ReviewsList.initial) ⊆ filterKeys).
  { simpl. intros key Hkey. apply elem_of_dom in Hkey. destruct Hkey as [v Hv].
    unfold filterKeys. rewrite !elem_of_union, !elem_of_singleton.
    destruct (decide (key = "location")) as [->|Hl]; [auto 10|].
    destruct (decide (key = "sentiment")) as [->|Hs]; [auto 10|].
    destruct (decide (key = "search")) as [->|Hq]; [auto 10|].
    rewrite !lookup_insert_ne, lookup_singleton_ne in Hv by congruence. discriminate Hv. }
  destruct (loadReviews_invariant ReviewsList.initial [] ltac:(simpl; lia) Hinit
              ltac:(constructor)) as (Hp & Hd & Hw).
  destruct (ReviewsList.loadReviews net reviewsOf totalOf totalPagesOf ReviewsList.initial [])
    as [st1 w1].
  apply Hrun; assumption.
Qed.

End ReviewsListRuns.

Lemma loadReviews_query_witness :
  dom (ReviewsList.filters ReviewsList.initial) ⊆ filterKeys
  /\ exists (config : AxiosRequestConfig) (n : nat),
       snd (ReviewsList.loadReviews (alwaysOk (mkData None "{}"))
              (fun _ => []) (fun _ => 0) (fun _ => 0) ReviewsList.initial [])
       = [] ++ retries config 0 n ++ [NetCall config]
       /\ asksForPage 1 10 config.
Proof.
  assert (Hinit : dom (ReviewsList.filters ReviewsList.initial) ⊆ filterKeys).
  { simpl. intros key Hkey. apply elem_of_dom in Hkey. destruct Hkey as [v Hv].
    unfold filterKeys. rewrite !elem_of_union, !elem_of_singleton.
    destruct (decide (key = "location")) as [->|Hl]; [auto 10|].
    destruct (decide (key = "sentiment")) as [->|Hs]; [auto 10|].
    destruct (decide (key = "search")) as [->|Hq]; [auto 10|].
    rewrite !lookup_insert_ne, lookup_singleton_ne in Hv by congruence. discriminate Hv. }
  split; [exact Hinit|].
  destruct (loadReviews_query (alwaysOk (mkData None "{}"))
              (fun _ => []) (fun _ => 0) (fun _ => 0) ReviewsList.initial [] Hinit)
    as (config & n & Hw & Hasks & _).
  exists config, n. split; [exact Hw|exact Hasks].
Defined.

(** ** The similar-review search of the detail page *)

Lemma trim_empty_iff s : String.eqb (trim s) "" = whitespaceOnly s.
Proof.
  destruct (whitespaceOnly s) eqn:Hs.
  - rewrite (trim_whitespaceOnly s Hs). reflexivity.
  - destruct (trim_not_blank s Hs) as (c & t & -> & _). reflexivity.
Qed.

Section DetailSearch.

Variable net : World -> AxiosRequestConfig -> AxiosResponse + JsError.
Variable resultsOf : ResponseData -> string.

Lemma searchSimilar_not_blank query k w :
  whitespaceOnly query = false ->
  exists n : nat,
    snd (searchSimilar net query k w) =
      w ++ retries {| method := GET; url := "/search";
                      params := Some {[ "q" := JsStr (trim query); "k" := JsNum k ]};
                      body := None |} 0 n
        ++ [NetCall {| method := GET; url := "/search";
                       params := Some {[ "q" := JsStr (trim query); "k" := JsNum k ]};
                       body := None |}].
Proof.
  intros Hq. destruct (trim_not_blank query Hq) as (c & t & Ht & _).
  unfold searchSimilar.
  rewrite (not_blank_nonempty query Hq), Ht. simpl. rewrite <- Ht.
  rewrite facade_world.
  - destruct (retryRequest_shape net
                {| method := GET; url := "/search";
                   params := Some {[ "q" := JsStr (trim query); "k" := JsNum k ]};
                   body := None |} 0 w) as (n & _ & Hs & _).
    exists n. exact Hs.
  - intros error w'. destruct (searchSimilar_catch_plain error w') as (msg & ->).
    reflexivity.
Qed.

(** X20: the guard of [handleSearchSimilar] and the validation of
    [searchSimilar] agree.  For a blank query the handler returns at
    once, leaving the state and the history as they were; for any other
    query it searches with [k = 5] and reaches the network.  In both
    cases the history is the one [searchSimilar] itself would leave, so
    the facade's "Search query is required" error cannot arise from this
    caller.  A failed search keeps the results shown before. *)
Theorem handleSearchSimilar_guard query st w :
  snd (ReviewDetail.handleSearchSimilar net resultsOf query st w)
  = snd (searchSimilar net query 5 w)
  /\ if whitespaceOnly query
     then ReviewDetail.handleSearchSimilar net resultsOf query st w = (st, w)
     else
       snd (ReviewDetail.handleSearchSimilar net resultsOf query st w) <> w
       /\ ReviewDetail.searching
            (fst (ReviewDetail.handleSearchSimilar net resultsOf query st w)) = false
       /\ ReviewDetail.similarReviews
            (fst (ReviewDetail.handleSearchSimilar net resultsOf query st w))
          = match fst (searchSimilar net query 5 w) with
            | inl d => resultsOf d
            | inr _ => ReviewDetail.similarReviews st
            end.
Proof.
  unfold ReviewDetail.handleSearchSimilar. rewrite trim_empty_iff.
  destruct (whitespaceOnly query) eqn:Hq.
  - split; [|reflexivity]. simpl.
    unfold searchSimilar, try_catch. rewrite (trim_whitespaceOnly query Hq).
    simpl. rewrite orb_true_r. reflexivity.
  - destruct (searchSimilar_not_blank query 5 w Hq) as (n & Hw).
    assert (Hmore : snd (searchSimilar net query 5 w) <> w).
    { rewrite Hw. intros Heq. apply (f_equal (@length _)) in Heq.
      rewrite !length_app in Heq. simpl in Heq. lia. }
    destruct (searchSimilar net query 5 w) as [[d|error] w1]; simpl in *;
      (split; [reflexivity|]); (split; [exact Hmore|split; reflexivity]).
Qed.

End DetailSearch.

(** ** Rendering helpers *)

(** X21: [renderStars] always draws five stars, the filled ones first:
    as many filled stars as the rating, but none for a rating of 0 or
    less and five for a rating of 5 or more. *)
Theorem renderStars_clamped rating :
  renderStars rating =
    repeat true (Z.to_nat (Z.max 0 (Z.min 5 rating)))
      ++ repeat false (5 - Z.to_nat (Z.max 0 (Z.min 5 rating)))
  /\ length (renderStars rating) = 5%nat.
Proof.
  split; [|reflexivity].
  unfold renderStars. change (seqZ 0 5) with [0; 1; 2; 3; 4]. simpl map.
  assert (Hcase : rating <= 0 \/ rating = 1 \/ rating = 2 \/ rating = 3 \/ rating = 4
                  \/ 5 <= rating) by lia.
  destruct Hcase as [H|[H|[H|[H|[H|H]]]]].
  - replace (Z.to_nat (Z.max 0 (Z.min 5 rating))) with 0%nat by lia.
    repeat match goal with
           | |- context [?a <? rating] => destruct (Z.ltb_spec a rating); try lia
           end.
    reflexivity.
  - subst. reflexivity.
  - subst. reflexivity.
  - subst. reflexivity.
  - subst. reflexivity.
  - replace (Z.to_nat (Z.max 0 (Z.min 5 rating))) with 5%nat by lia.
    repeat match goal with
           | |- context [?a <? rating] => destruct (Z.ltb_spec a rating); try lia
           end.
    reflexivity.
Qed.

Lemma length_append (a b : string) :
  String.length (a +:+ b) = (String.length a + String.length b)%nat.
Proof.
  induction a as [|c a IH]; [reflexivity|].
  change (S (String.length (a +:+ b)) = S (String.length a + String.length b)).
  rewrite IH. reflexivity.
Qed.

Lemma length_substring_0 n : forall s,
  String.length (String.substring 0 n s) = Nat.min n (String.length s).
Proof.
  induction n as [|n IH]; intros [|c s]; simpl; try reflexivity.
  rewrite IH. reflexivity.
Qed.

(** X22: the text cell of the reviews table shows a review of at most
    100 characters unchanged and cuts a longer one to its first 100
    characters followed by three dots, so the cell never holds more than
    103 characters. *)
Theorem previewText_bounded text :
  (String.length (previewText text) <= 103)%nat
  /\ (if (String.length text <=? 100)%nat then previewText text = text
      else previewText text = String.substring 0 100 text +:+ "..."
           /\ String.length (previewText text) = 103%nat
           /\ String.prefix (String.substring 0 100 text) text = true).
Proof.
  unfold previewText.
  destruct (Nat.ltb_spec 100 (String.length text)) as [Hlong|Hshort].
  - assert (Hlen : String.length (String.substring 0 100 text +:+ "...") = 103%nat).
    { rewrite length_append, length_substring_0.
      change (String.length "...") with 3%nat. lia. }
    split; [lia|].
    destruct (Nat.leb_spec (String.length text) 100); [lia|].
    split; [reflexivity|]. split; [exact Hlen|].
    apply String.prefix_correct.
    rewrite length_substring_0.
    replace (Nat.min 100 (String.length text)) with 100%nat by lia. reflexivity.
  - split; [lia|].
    destruct (Nat.leb_spec (String.length text) 100); [reflexivity|lia].
Qed.
